(** * The trading-decision engine of [strategy_engine.py]

    A shallow embedding of [should_stop_loss], [StrategyParams], [Entry]
    and [StrategyState] (with [to_json], [from_json] and [process_bar]),
    and of the functions of [live_btc_real.py] that feed the engine and
    carry out its actions ([_get_pos_side_from_trade],
    [_infer_tp1_done_from_trades], [sync_state_from_exchange] and
    [execute_actions]), followed by their properties.

    Conventions of the embedding:
    - a Python [float] is an exact rational ([Q]); rounding, infinities and
      NaN payloads of the inputs are outside the model, but the NaN that a
      rolling mean yields on a short or empty window is kept ([None]).
      The program computes in binary64: where a profit lies within a
      rounding error of its threshold the two can disagree, and the module
      [Binary64] below holds the three tests as the program computes them,
      to check the sample inputs against;
    - a Python [int] is a [Z]; a window length is a [nat], since pandas
      accepts no negative window;
    - a raised exception is the [Raised] outcome of a small error monad;
    - the in-place mutation of [self] is explicit state passing:
      [process_bar] returns the updated state next to the action list. *)

From Stdlib Require Import QArith ZArith Lia Bool String Ascii DecimalString.
From Stdlib Require Import Sorted Permutation Floats.
From stdpp Require Import base option list strings.

Local Open Scope string_scope.
Local Open Scope Q_scope.

(** ** Outcomes of a Python call *)

Inductive exn : Set :=
| ZeroDivisionError
| IndexError
| TypeError
| AttributeError.

Inductive outcome (A : Type) : Type :=
| Returned (a : A)
| Raised (e : exn).

Arguments Returned {A} a.
Arguments Raised {A} e.

Definition bind {A B : Type} (m : outcome A) (k : A -> outcome B) : outcome B :=
  match m with
  | Returned a => k a
  | Raised e => Raised e
  end.

Notation "'let*' x ':=' m 'in' k" := (bind m (fun x => k))
  (at level 10, x name, m at level 100, k at level 200, only parsing).

(** A block that may [return] early: [None] means that control falls
    through to the code after the block. *)
Definition or_else {R : Type} (m k : outcome (option R)) : outcome (option R) :=
  let* r := m in
  match r with
  | Some x => Returned (Some x)
  | None => k
  end.

(** ** Float arithmetic and comparisons *)

Definition Qltb (x y : Q) : bool := (Qnum x * QDen y <? Qnum y * QDen x)%Z.
Definition Qleb (x y : Q) : bool := Qle_bool x y.

(** [x / y] on floats: Python raises on a zero divisor. *)
Definition truediv (x y : Q) : outcome Q :=
  if Qeq_bool y 0 then Raised ZeroDivisionError else Returned (x / y).

(** [x < y] where an operand may be NaN: every comparison with NaN is false. *)
Definition nan_lt (x y : option Q) : bool :=
  match x, y with
  | Some a, Some b => Qltb a b
  | _, _ => false
  end.

(** ** The price frame *)

(** A frame is its named columns; only [close] is read. *)
Definition DataFrame : Type := list (string * list Q).

Fixpoint column (name : string) (df : DataFrame) : option (list Q) :=
  match df with
  | [] => None
  | (k, xs) :: rest => if String.eqb k name then Some xs else column name rest
  end.

(** [series.iloc[i]] *)
Definition iloc (xs : list Q) (i : nat) : outcome Q :=
  match xs !! i with
  | Some x => Returned x
  | None => Raised IndexError
  end.

Definition Qsum (xs : list Q) : Q := foldr Qplus 0 xs.

(** Modelled from the spec: pandas' [close.rolling(w).mean()] read at
    position [i] (pandas is not part of the repository).  It is the mean of
    the [w] observations ending at [i]; a position with fewer than [w]
    observations, and an empty window, give an undefined value (NaN). *)
Definition rolling_mean (w : nat) (xs : list Q) (i : nat) : option Q :=
  if (w =? 0)%nat || (i + 1 <? w)%nat then None
  else Some (Qsum (take w (drop (i + 1 - w) xs)) / inject_Z (Z.of_nat w)).

(** ** [should_stop_loss] *)

Definition should_stop_loss (entry_price current_price : Q) (side : string)
    (sl_pct : Q) : outcome bool :=
  if Qleb sl_pct 0 then Returned false
  else
    let* ratio :=
      if String.eqb side "long" then truediv current_price entry_price
      else truediv entry_price current_price in
    let pnl_pct := ratio - 1 in
    Returned (Qleb pnl_pct (- sl_pct)).

(** ** The dataclasses *)

Module StrategyParams.
Record t : Set := mk {
  ma_fast : nat;
  ma_slow : nat;
  buy_pct : Q;
  tp1_pct : Q;
  tp2_pct : Q;
  sl_pct : Q;
  tp1_sell_prop : Q
}.

Definition default : t := mk 10 20 0.15 0.08 0.14 0.18 0.9.
End StrategyParams.

Module Entry.
Record t : Set := mk {
  price : Q;
  size : Q;
  tp1_done : bool
}.
End Entry.

(** The action dictionaries that [process_bar] emits; [notional] is present
    on the two opening actions only. *)
Module Action.
Record t : Set := mk {
  op : string;
  side : string;
  size : Q;
  price : Q;
  notional : option Q
}.
End Action.

Module StrategyState.
Record t : Set := mk {
  params : StrategyParams.t;
  long_entries : list Entry.t;
  short_entries : list Entry.t;
  completed_long_trades : Z;
  completed_short_trades : Z
}.

Definition default : t := mk StrategyParams.default [] [] 0 0.

Definition with_long_entries (self : t) (es : list Entry.t) : t :=
  mk (params self) es (short_entries self)
     (completed_long_trades self) (completed_short_trades self).

Definition with_short_entries (self : t) (es : list Entry.t) : t :=
  mk (params self) (long_entries self) es
     (completed_long_trades self) (completed_short_trades self).

(** What a call hands back: the mutated [self] and the returned list. *)
Definition result : Set := (t * list Action.t)%type.

(** *** The readings taken from the frame (lines 73-94) *)

Record Bar : Set := mkBar {
  price : Q;
  prev_price : Q;
  last_ma_fast : option Q;
  prev_ma_fast : option Q;
  last_ma_slow : option Q;
  prev_ma_slow : option Q;
  last_ma120 : option Q
}.

Definition max_period (p : StrategyParams.t) : nat :=
  Nat.max (Nat.max (StrategyParams.ma_fast p) (StrategyParams.ma_slow p)) 120.

(** [None] stands for one of the three [return []] of the prologue. *)
Definition read_bar (p : StrategyParams.t) (df : DataFrame) : outcome (option Bar) :=
  match column "close" df with
  | None => Returned None
  | Some close =>
    if (length close <? max_period p + 1)%nat then Returned None
    else
      let ma_fast := rolling_mean (StrategyParams.ma_fast p) close in
      let ma_slow := rolling_mean (StrategyParams.ma_slow p) close in
      let ma120 := rolling_mean 120 close in
      let idx := (length close - 1)%nat in
      let* price := iloc close idx in
      let* prev_price := iloc close (idx - 1) in
      let last_ma_fast := ma_fast idx in
      let prev_ma_fast := ma_fast (idx - 1)%nat in
      let last_ma_slow := ma_slow idx in
      let prev_ma_slow := ma_slow (idx - 1)%nat in
      let last_ma120 := ma120 idx in
      if Qleb price 0 then Returned None
      else Returned (Some (mkBar price prev_price last_ma_fast prev_ma_fast
                                 last_ma_slow prev_ma_slow last_ma120))
  end.

(** *** The two crossover signals (lines 98-104 and 122-128) *)

Definition long_signal (b : Bar) : bool :=
  nan_lt (Some (prev_price b)) (prev_ma_fast b)
  && nan_lt (last_ma_fast b) (Some (price b))
  && nan_lt (Some (prev_price b)) (prev_ma_slow b)
  && nan_lt (last_ma_slow b) (Some (price b))
  && nan_lt (last_ma120 b) (Some (price b)).

Definition short_signal (b : Bar) : bool :=
  nan_lt (prev_ma_fast b) (Some (prev_price b))
  && nan_lt (Some (price b)) (last_ma_fast b)
  && nan_lt (prev_ma_slow b) (Some (prev_price b))
  && nan_lt (Some (price b)) (last_ma_slow b)
  && nan_lt (Some (price b)) (last_ma120 b).

(** *** Opening a position (lines 106-120 and 130-143) *)

Definition open_long (self : t) (b : Bar) (account_value cash : Q)
    : outcome (option result) :=
  if long_signal b then
    let buy_amount := account_value * StrategyParams.buy_pct (params self) in
    if Qleb buy_amount cash then
      let* size := truediv buy_amount (price b) in
      Returned (Some
        (with_long_entries self
           (long_entries self ++ [Entry.mk (price b) size false]),
         [Action.mk "open_long" "buy" size (price b) (Some buy_amount)]))
    else Returned None
  else Returned None.

Definition open_short (self : t) (b : Bar) (account_value : Q)
    : outcome (option result) :=
  if short_signal b then
    let sell_amount := account_value * StrategyParams.buy_pct (params self) in
    let* size := truediv sell_amount (price b) in
    Returned (Some
      (with_short_entries self
         (short_entries self ++ [Entry.mk (price b) size false]),
       [Action.mk "open_short" "sell" size (price b) (Some sell_amount)]))
  else Returned None.

(** *** The two management loops (lines 145-188 and 190-233)

    [manage_long self price n] runs the iterations [i = n-1, ..., 0] of
    [for i in range(len(self.long_entries) - 1, -1, -1)]. *)

Fixpoint manage_long (self : t) (price : Q) (n : nat) : outcome (option result) :=
  match n with
  | O => Returned None
  | S i =>
    match long_entries self !! i with
    | None => Raised IndexError
    | Some entry =>
      let p := params self in
      let* ratio := truediv price (Entry.price entry) in
      let pnl_pct := ratio - 1 in
      if negb (Entry.tp1_done entry) && Qleb (StrategyParams.tp1_pct p) pnl_pct then
        let sell_size := Entry.size entry * StrategyParams.tp1_sell_prop p in
        let entry' := Entry.mk (Entry.price entry) (Entry.size entry - sell_size) true in
        Returned (Some
          (with_long_entries self (<[i := entry']> (long_entries self)),
           [Action.mk "tp1_long" "sell" sell_size price None]))
      else
        let* stop := should_stop_loss (Entry.price entry) price "long"
                                      (StrategyParams.sl_pct p) in
        if stop then
          let sell_size := Entry.size entry in
          Returned (Some
            (with_long_entries self (delete i (long_entries self)),
             [Action.mk "sl_long" "sell" sell_size price None]))
        else if Entry.tp1_done entry && Qleb (StrategyParams.tp2_pct p) pnl_pct then
          let sell_size := Entry.size entry in
          Returned (Some
            (mk (params self) (delete i (long_entries self)) (short_entries self)
                (completed_long_trades self + 1) (completed_short_trades self),
             [Action.mk "tp2_long" "sell" sell_size price None]))
        else manage_long self price i
    end
  end.

Fixpoint manage_short (self : t) (price : Q) (n : nat) : outcome (option result) :=
  match n with
  | O => Returned None
  | S i =>
    match short_entries self !! i with
    | None => Raised IndexError
    | Some entry =>
      let p := params self in
      let* ratio := truediv (Entry.price entry) price in
      let pnl_pct := ratio - 1 in
      if negb (Entry.tp1_done entry) && Qleb (StrategyParams.tp1_pct p) pnl_pct then
        let buy_size := Entry.size entry * StrategyParams.tp1_sell_prop p in
        let entry' := Entry.mk (Entry.price entry) (Entry.size entry - buy_size) true in
        Returned (Some
          (with_short_entries self (<[i := entry']> (short_entries self)),
           [Action.mk "tp1_short" "buy" buy_size price None]))
      else
        let* stop := should_stop_loss (Entry.price entry) price "short"
                                      (StrategyParams.sl_pct p) in
        if stop then
          let buy_size := Entry.size entry in
          Returned (Some
            (with_short_entries self (delete i (short_entries self)),
             [Action.mk "sl_short" "buy" buy_size price None]))
        else if Entry.tp1_done entry && Qleb (StrategyParams.tp2_pct p) pnl_pct then
          let buy_size := Entry.size entry in
          Returned (Some
            (mk (params self) (long_entries self) (delete i (short_entries self))
                (completed_long_trades self) (completed_short_trades self + 1),
             [Action.mk "tp2_short" "buy" buy_size price None]))
        else manage_short self price i
    end
  end.

(** The scan that runs when no position was opened. *)
Definition manage (self : t) (price : Q) : outcome result :=
  let* r :=
    or_else (manage_long self price (length (long_entries self)))
            (manage_short self price (length (short_entries self))) in
  match r with
  | Some x => Returned x
  | None => Returned (self, [])
  end.

(** *** [process_bar] *)

Definition process_bar (self : t) (df : DataFrame) (account_value cash : Q)
    : outcome result :=
  let* bar := read_bar (params self) df in
  match bar with
  | None => Returned (self, [])
  | Some b =>
    let* opened :=
      or_else (open_long self b account_value cash)
              (open_short self b account_value) in
    match opened with
    | Some x => Returned x
    | None => manage self (price b)
    end
  end.
End StrategyState.

(** ** Snapshots: [to_json] and [from_json]

    [json.dumps] and [json.loads] belong to Python's standard library; the
    snapshot is taken here as the JSON document itself, the value that
    [json.dumps] receives and that [json.loads] hands back. *)

#[warnings="-register-all"]
Inductive pyval : Type :=
| PNone
| PBool (b : bool)
| PInt (z : Z)
| PFloat (q : Q)
| PStr (s : string)
| PList (xs : list pyval)
| PDict (kv : list (string * pyval)).

(** [d.get(key)] on the items of a dictionary. *)
Fixpoint dget (key : string) (kv : list (string * pyval)) : option pyval :=
  match kv with
  | [] => None
  | (k, v) :: rest => if String.eqb k key then Some v else dget key rest
  end.

(** A keyword argument with a default value. *)
Definition kwarg (key : string) (dflt : pyval) (kw : list (string * pyval)) : pyval :=
  match dget key kw with
  | Some v => v
  | None => dflt
  end.

(** Every keyword names a field of the dataclass. *)
Definition known_keywords (fields : list string) (kw : list (string * pyval)) : bool :=
  forallb (fun k => existsb (String.eqb k) fields) (map fst kw).

(** A dataclass does not check the types of its fields: an instance built
    from a snapshot holds whatever values the snapshot carries. *)
Module Obj.
Record Params : Type := mkParams {
  ma_fast : pyval;
  ma_slow : pyval;
  buy_pct : pyval;
  tp1_pct : pyval;
  tp2_pct : pyval;
  sl_pct : pyval;
  tp1_sell_prop : pyval
}.

Record Entry : Type := mkEntry {
  price : pyval;
  size : pyval;
  tp1_done : pyval
}.

Record State : Type := mkState {
  params : Params;
  long_entries : list Entry;
  short_entries : list Entry;
  completed_long_trades : pyval;
  completed_short_trades : pyval
}.

Definition default_params : Params :=
  mkParams (PInt 10) (PInt 20) (PFloat 0.15) (PFloat 0.08) (PFloat 0.14)
           (PFloat 0.18) (PFloat 0.9).

(** [StrategyParams] applied to the keywords [kw] *)
Definition new_params (kw : list (string * pyval)) : outcome Params :=
  if known_keywords ["ma_fast"; "ma_slow"; "buy_pct"; "tp1_pct"; "tp2_pct";
                     "sl_pct"; "tp1_sell_prop"] kw
  then Returned (mkParams (kwarg "ma_fast" (PInt 10) kw)
                          (kwarg "ma_slow" (PInt 20) kw)
                          (kwarg "buy_pct" (PFloat 0.15) kw)
                          (kwarg "tp1_pct" (PFloat 0.08) kw)
                          (kwarg "tp2_pct" (PFloat 0.14) kw)
                          (kwarg "sl_pct" (PFloat 0.18) kw)
                          (kwarg "tp1_sell_prop" (PFloat 0.9) kw))
  else Raised TypeError.

(** [Entry] applied to the keywords of [e]: [price] and [size] have no default. *)
Definition new_entry (e : pyval) : outcome Entry :=
  match e with
  | PDict kw =>
    if known_keywords ["price"; "size"; "tp1_done"] kw then
      match dget "price" kw, dget "size" kw with
      | Some p, Some s => Returned (mkEntry p s (kwarg "tp1_done" (PBool false) kw))
      | _, _ => Raised TypeError
      end
    else Raised TypeError
  | _ => Raised TypeError
  end.

Fixpoint new_entries (xs : list pyval) : outcome (list Entry) :=
  match xs with
  | [] => Returned []
  | e :: rest =>
    let* x := new_entry e in
    let* tl := new_entries rest in
    Returned (x :: tl)
  end.

(** The comprehension that builds an [Entry] from each element of [v]: a list is walked; an empty dictionary or
    string yields no element, a non-empty one yields strings, which are
    no mappings; the other values cannot be iterated. *)
Definition entries_of (v : pyval) : outcome (list Entry) :=
  match v with
  | PList xs => new_entries xs
  | PDict [] => Returned []
  | PStr EmptyString => Returned []
  | _ => Raised TypeError
  end.

(** [asdict] of the two small dataclasses. *)
Definition params_dict (p : Params) : pyval :=
  PDict [("ma_fast", ma_fast p); ("ma_slow", ma_slow p); ("buy_pct", buy_pct p);
         ("tp1_pct", tp1_pct p); ("tp2_pct", tp2_pct p); ("sl_pct", sl_pct p);
         ("tp1_sell_prop", tp1_sell_prop p)].

Definition entry_dict (e : Entry) : pyval :=
  PDict [("price", price e); ("size", size e); ("tp1_done", tp1_done e)].

Definition to_json (self : State) : pyval :=
  PDict [("params", params_dict (params self));
         ("long_entries", PList (map entry_dict (long_entries self)));
         ("short_entries", PList (map entry_dict (short_entries self)));
         ("completed_long_trades", completed_long_trades self);
         ("completed_short_trades", completed_short_trades self)].

Definition from_json (raw : pyval) : outcome State :=
  match raw with
  | PDict d =>
    let* params :=
      match kwarg "params" (PDict []) d with
      | PDict kw => new_params kw
      | _ => Raised TypeError
      end in
    let* long_entries := entries_of (kwarg "long_entries" (PList []) d) in
    let* short_entries := entries_of (kwarg "short_entries" (PList []) d) in
    let completed_long_trades := kwarg "completed_long_trades" (PInt 0) d in
    let completed_short_trades := kwarg "completed_short_trades" (PInt 0) d in
    Returned (mkState params long_entries short_entries
                      completed_long_trades completed_short_trades)
  | _ => Raised AttributeError
  end.
End Obj.

(** The instances whose fields have the annotated types, as objects. *)
Definition params_obj (p : StrategyParams.t) : Obj.Params :=
  Obj.mkParams (PInt (Z.of_nat (StrategyParams.ma_fast p)))
               (PInt (Z.of_nat (StrategyParams.ma_slow p)))
               (PFloat (StrategyParams.buy_pct p))
               (PFloat (StrategyParams.tp1_pct p))
               (PFloat (StrategyParams.tp2_pct p))
               (PFloat (StrategyParams.sl_pct p))
               (PFloat (StrategyParams.tp1_sell_prop p)).

Definition entry_obj (e : Entry.t) : Obj.Entry :=
  Obj.mkEntry (PFloat (Entry.price e)) (PFloat (Entry.size e))
              (PBool (Entry.tp1_done e)).

Definition state_obj (s : StrategyState.t) : Obj.State :=
  Obj.mkState (params_obj (StrategyState.params s))
              (map entry_obj (StrategyState.long_entries s))
              (map entry_obj (StrategyState.short_entries s))
              (PInt (StrategyState.completed_long_trades s))
              (PInt (StrategyState.completed_short_trades s)).

(** [d] is no dictionary or has no item [key]. *)
Definition lacks (key : string) (v : pyval) : bool :=
  match v with
  | PDict kv => match dget key kv with Some _ => false | None => true end
  | _ => true
  end.

(** An entry of a snapshot that has no [price] or no [size]. *)
Definition entry_unpriced (e : pyval) : bool := lacks "price" e || lacks "size" e.

Definition has_unpriced_entry (v : option pyval) : bool :=
  match v with
  | Some (PList xs) => existsb entry_unpriced xs
  | _ => false
  end.

(** A snapshot that lacks required state content: the parameters, a
    completed-trade counter, or the price or size of an entry. *)
Definition missing_content (raw : pyval) : bool :=
  match raw with
  | PDict d =>
    lacks "params" raw
    || lacks "completed_long_trades" raw
    || lacks "completed_short_trades" raw
    || has_unpriced_entry (dget "long_entries" d)
    || has_unpriced_entry (dget "short_entries" d)
  | _ => true
  end.

(** ** Vocabulary of the management rules *)

Inductive book : Set := Long | Short.

Inductive exit_kind : Set := Tp1 | Sl | Tp2.

(** The profit of an entry at the current price. *)
Definition pnl_pct (d : book) (price : Q) (e : Entry.t) : Q :=
  match d with
  | Long => price / Entry.price e - 1
  | Short => Entry.price e / price - 1
  end.

Definition tp1_hit (p : StrategyParams.t) (pnl : Q) (e : Entry.t) : bool :=
  negb (Entry.tp1_done e) && Qleb (StrategyParams.tp1_pct p) pnl.

(** The stop-loss test as [should_stop_loss] decides it. *)
Definition sl_hit (p : StrategyParams.t) (pnl : Q) : bool :=
  negb (Qleb (StrategyParams.sl_pct p) 0) && Qleb pnl (- StrategyParams.sl_pct p).

Definition tp2_hit (p : StrategyParams.t) (pnl : Q) (e : Entry.t) : bool :=
  Entry.tp1_done e && Qleb (StrategyParams.tp2_pct p) pnl.

(** The first of the three checks, in the order tier-1, stop-loss, tier-2,
    that holds for an entry. *)
Definition first_hit (p : StrategyParams.t) (pnl : Q) (e : Entry.t) : option exit_kind :=
  if tp1_hit p pnl e then Some Tp1
  else if sl_hit p pnl then Some Sl
  else if tp2_hit p pnl e then Some Tp2
  else None.

(** The ledger of a book. *)
Definition entries (d : book) (s : StrategyState.t) : list Entry.t :=
  match d with
  | Long => StrategyState.long_entries s
  | Short => StrategyState.short_entries s
  end.

(** The profit of a long entry divides by its price. *)
Definition pnl_defined (d : book) (e : Entry.t) : bool :=
  match d with
  | Long => negb (Qeq_bool (Entry.price e) 0)
  | Short => true
  end.

(** No condition trips on the entry (and its profit is defined). *)
Definition quiet (p : StrategyParams.t) (d : book) (price : Q) (e : Entry.t) : bool :=
  pnl_defined d e
  && match first_hit p (pnl_pct d price e) e with
     | None => true
     | Some _ => false
     end.

(** The entries scanned before index [i]: those appended after it. *)
Definition newer (i : nat) (es : list Entry.t) : list Entry.t := drop (S i) es.

(** Entry [i] of book [d] is reached by the scan: nothing trips on a newer
    entry of its book nor, for a short entry, on any long entry. *)
Definition reached (s : StrategyState.t) (price : Q) (d : book) (i : nat) : bool :=
  let p := StrategyState.params s in
  match d with
  | Long => forallb (quiet p Long price) (newer i (StrategyState.long_entries s))
  | Short =>
    forallb (quiet p Long price) (StrategyState.long_entries s)
    && forallb (quiet p Short price) (newer i (StrategyState.short_entries s))
  end.

Definition op_tag (d : book) (k : exit_kind) : string :=
  match d, k with
  | Long, Tp1 => "tp1_long"
  | Long, Sl => "sl_long"
  | Long, Tp2 => "tp2_long"
  | Short, Tp1 => "tp1_short"
  | Short, Sl => "sl_short"
  | Short, Tp2 => "tp2_short"
  end.

Definition closing_side (d : book) : string :=
  match d with
  | Long => "sell"
  | Short => "buy"
  end.

(** What section 4.3 of the specification prescribes for each condition:
    the size closed, the action emitted, the ledger and the state left. *)
Definition exit_size (p : StrategyParams.t) (k : exit_kind) (e : Entry.t) : Q :=
  match k with
  | Tp1 => Entry.size e * StrategyParams.tp1_sell_prop p
  | Sl | Tp2 => Entry.size e
  end.

Definition exit_action (p : StrategyParams.t) (d : book) (k : exit_kind)
    (e : Entry.t) (price : Q) : Action.t :=
  Action.mk (op_tag d k) (closing_side d) (exit_size p k e) price None.

Definition exit_ledger (p : StrategyParams.t) (k : exit_kind) (i : nat)
    (e : Entry.t) (es : list Entry.t) : list Entry.t :=
  match k with
  | Tp1 =>
    <[i := Entry.mk (Entry.price e)
                    (Entry.size e - Entry.size e * StrategyParams.tp1_sell_prop p)
                    true]> es
  | Sl | Tp2 => delete i es
  end.

(** Only a tier-2 exit counts as a completed trade. *)
Definition count_exit (k : exit_kind) (completed : Z) : Z :=
  match k with
  | Tp2 => (completed + 1)%Z
  | Tp1 | Sl => completed
  end.

Definition exit_state (s : StrategyState.t) (d : book) (k : exit_kind) (i : nat)
    (e : Entry.t) : StrategyState.t :=
  let p := StrategyState.params s in
  match d with
  | Long =>
    StrategyState.mk p (exit_ledger p k i e (StrategyState.long_entries s))
      (StrategyState.short_entries s)
      (count_exit k (StrategyState.completed_long_trades s))
      (StrategyState.completed_short_trades s)
  | Short =>
    StrategyState.mk p (StrategyState.long_entries s)
      (exit_ledger p k i e (StrategyState.short_entries s))
      (StrategyState.completed_long_trades s)
      (count_exit k (StrategyState.completed_short_trades s))
  end.

(** The current close when the frame is usable and the bar opens no
    position, that is when [process_bar] reaches the management scan. *)
Definition scan_price (self : StrategyState.t) (df : DataFrame)
    (account_value cash : Q) : option Q :=
  match StrategyState.read_bar (StrategyState.params self) df with
  | Returned (Some b) =>
    let buy_amount :=
      account_value * StrategyParams.buy_pct (StrategyState.params self) in
    if (StrategyState.long_signal b && Qleb buy_amount cash)
       || StrategyState.short_signal b
    then None
    else Some (StrategyState.price b)
  | _ => None
  end.

(** Every entry of both ledgers has a positive price, resp. size. *)
Definition ledgers_priced (s : StrategyState.t) : Prop :=
  Forall (fun e => 0 < Entry.price e) (StrategyState.long_entries s)
  /\ Forall (fun e => 0 < Entry.price e) (StrategyState.short_entries s).

Definition ledgers_sized (s : StrategyState.t) : Prop :=
  Forall (fun e => 0 < Entry.size e) (StrategyState.long_entries s)
  /\ Forall (fun e => 0 < Entry.size e) (StrategyState.short_entries s).

Definition opposite (d : book) : book :=
  match d with
  | Long => Short
  | Short => Long
  end.



(** ** The crossover conditions, as section 4.2 words them *)

Definition below (x : Q) (ma : option Q) : Prop :=
  match ma with
  | Some v => x < v
  | None => False
  end.

Definition above (x : Q) (ma : option Q) : Prop :=
  match ma with
  | Some v => v < x
  | None => False
  end.

Definition bullish (b : StrategyState.Bar) : Prop :=
  below (StrategyState.prev_price b) (StrategyState.prev_ma_fast b)
  /\ above (StrategyState.price b) (StrategyState.last_ma_fast b)
  /\ below (StrategyState.prev_price b) (StrategyState.prev_ma_slow b)
  /\ above (StrategyState.price b) (StrategyState.last_ma_slow b)
  /\ above (StrategyState.price b) (StrategyState.last_ma120 b).

Definition bearish (b : StrategyState.Bar) : Prop :=
  above (StrategyState.prev_price b) (StrategyState.prev_ma_fast b)
  /\ below (StrategyState.price b) (StrategyState.last_ma_fast b)
  /\ above (StrategyState.prev_price b) (StrategyState.prev_ma_slow b)
  /\ below (StrategyState.price b) (StrategyState.last_ma_slow b)
  /\ below (StrategyState.price b) (StrategyState.last_ma120 b).

(** ** The effects that one call can have *)

Inductive bar_effect (self : StrategyState.t) (account_value : Q)
  : StrategyState.result -> Prop :=
| effect_none :
    bar_effect self account_value (self, [])
| effect_open_long price :
    0 < price ->
    bar_effect self account_value
      (StrategyState.with_long_entries self
         (StrategyState.long_entries self
          ++ [Entry.mk price
                (account_value * StrategyParams.buy_pct (StrategyState.params self)
                 / price)
                false]),
       [Action.mk "open_long" "buy"
          (account_value * StrategyParams.buy_pct (StrategyState.params self) / price)
          price
          (Some (account_value * StrategyParams.buy_pct (StrategyState.params self)))])
| effect_open_short price :
    0 < price ->
    bar_effect self account_value
      (StrategyState.with_short_entries self
         (StrategyState.short_entries self
          ++ [Entry.mk price
                (account_value * StrategyParams.buy_pct (StrategyState.params self)
                 / price)
                false]),
       [Action.mk "open_short" "sell"
          (account_value * StrategyParams.buy_pct (StrategyState.params self) / price)
          price
          (Some (account_value * StrategyParams.buy_pct (StrategyState.params self)))])
| effect_exit price d i e k :
    0 < price ->
    entries d self !! i = Some e ->
    bar_effect self account_value
      (exit_state self d k i e,
       [exit_action (StrategyState.params self) d k e price]).

(** A long entry whose price is zero. *)
Definition unpriced_long (self : StrategyState.t) : Prop :=
  exists i e,
    StrategyState.long_entries self !! i = Some e /\ Entry.price e == 0.

(** ** Sample inputs *)

Module Sample.
(** A frame whose 121 closes are all [x]: no crossover. *)
Definition flat (x : Q) : DataFrame := [("close", replicate 121 x)].

(** 120 closes at 100, a dip to 90 and a close at 120: a bullish
    crossover; and its mirror image. *)
Definition rising : DataFrame := [("close", (replicate 120 100 ++ [90; 120])%list)].
Definition falling : DataFrame := [("close", (replicate 120 100 ++ [110; 80])%list)].

(** The readings that [process_bar] takes from these two frames. *)
Definition no_bar : StrategyState.Bar :=
  StrategyState.mkBar 0 0 None None None None None.

Definition rising_bar : StrategyState.Bar :=
  Eval vm_compute in
    match StrategyState.read_bar StrategyParams.default rising with
    | Returned (Some b) => b
    | _ => no_bar
    end.

Definition falling_bar : StrategyState.Bar :=
  Eval vm_compute in
    match StrategyState.read_bar StrategyParams.default falling with
    | Returned (Some b) => b
    | _ => no_bar
    end.

Definition fresh : Entry.t := Entry.mk 100 1 false.
Definition halved : Entry.t := Entry.mk 100 1 true.

Definition one_long (e : Entry.t) : StrategyState.t :=
  StrategyState.mk StrategyParams.default [e] [] 0 0.

(** Two long entries and a short one; the oldest long entry has no
    usable price. *)
Definition crowded : StrategyState.t :=
  StrategyState.mk StrategyParams.default
    [Entry.mk 0 1 false; halved; fresh] [Entry.mk 200 1 false] 3 4.



(** Tier-1 closes the whole entry. *)
Definition sell_all : StrategyParams.t := StrategyParams.mk 10 20 0.15 0.08 0.14 0.18 1.

Definition all_in : StrategyState.t := StrategyState.mk sell_all [fresh] [] 0 0.

(** A snapshot with one long entry and nothing else: no parameters, no
    counters, no [tp1_done]; and one whose entry has no size. *)
Definition bare_snapshot : pyval :=
  PDict [("long_entries", PList [PDict [("price", PFloat 100); ("size", PFloat 1)]])].

Definition sizeless_snapshot : pyval :=
  PDict [("long_entries", PList [PDict [("price", PFloat 100)]])].
End Sample.

(** ** The steps of a call, with their causes *)

(** Each result that [process_bar] can return, next to the condition
    under which it returns it. *)
Inductive bar_step (self : StrategyState.t) (df : DataFrame)
    (account_value cash : Q) : StrategyState.result -> Prop :=
| step_none :
    bar_step self df account_value cash (self, [])
| step_open_long b :
    StrategyState.read_bar (StrategyState.params self) df = Returned (Some b) ->
    bullish b ->
    account_value * StrategyParams.buy_pct (StrategyState.params self) <= cash ->
    bar_step self df account_value cash
      (StrategyState.with_long_entries self
         (StrategyState.long_entries self
          ++ [Entry.mk (StrategyState.price b)
                (account_value * StrategyParams.buy_pct (StrategyState.params self)
                 / StrategyState.price b)
                false]),
       [Action.mk "open_long" "buy"
          (account_value * StrategyParams.buy_pct (StrategyState.params self)
           / StrategyState.price b)
          (StrategyState.price b)
          (Some (account_value * StrategyParams.buy_pct (StrategyState.params self)))])
| step_open_short b :
    StrategyState.read_bar (StrategyState.params self) df = Returned (Some b) ->
    bearish b ->
    bar_step self df account_value cash
      (StrategyState.with_short_entries self
         (StrategyState.short_entries self
          ++ [Entry.mk (StrategyState.price b)
                (account_value * StrategyParams.buy_pct (StrategyState.params self)
                 / StrategyState.price b)
                false]),
       [Action.mk "open_short" "sell"
          (account_value * StrategyParams.buy_pct (StrategyState.params self)
           / StrategyState.price b)
          (StrategyState.price b)
          (Some (account_value * StrategyParams.buy_pct (StrategyState.params self)))])
| step_exit price d i e k :
    scan_price self df account_value cash = Some price ->
    entries d self !! i = Some e ->
    pnl_defined d e = true ->
    reached self price d i = true ->
    first_hit (StrategyState.params self) (pnl_pct d price e) e = Some k ->
    bar_step self df account_value cash
      (exit_state self d k i e,
       [exit_action (StrategyState.params self) d k e price]).

(** The scan runs into a long entry whose price is zero. *)
Definition scan_meets_unpriced (self : StrategyState.t) (df : DataFrame)
    (account_value cash : Q) : Prop :=
  exists price i e,
    scan_price self df account_value cash = Some price
    /\ StrategyState.long_entries self !! i = Some e
    /\ Entry.price e == 0
    /\ reached self price Long i = true.

(** The number of returned actions that carry the tag [tag]. *)
Definition tagged (tag : string) (actions : list Action.t) : Z :=
  Z.of_nat (length (filter (fun a => Action.op a = tag) actions)).

(** ** The live script [live_btc_real.py]

    The script talks to the exchange through the [ccxt] client, which is
    not part of the repository.  The dictionaries that the client hands
    over are records here, with the fields that the script reads; a field
    is [None] when the key is absent or holds [None].  A call of the
    client returns a value or raises an exception that carries a message. *)

Inductive reply (A : Type) : Type :=
| Ok (a : A)
| Err (msg : string).

Arguments Ok {A} a.
Arguments Err {A} msg.

(** How a function of the script can end. *)
Inductive failure : Set :=
| ExchangeError (msg : string)
| RuntimeError (msg : string)
| DivisionByZero.

Inductive run (A : Type) : Type :=
| Done (a : A)
| Failed (f : failure).

Arguments Done {A} a.
Arguments Failed {A} f.

Definition and_then {A B : Type} (m : run A) (k : A -> run B) : run B :=
  match m with
  | Done a => k a
  | Failed f => Failed f
  end.

(** A call of the client whose exception is not caught. *)
Definition call {A : Type} (r : reply A) : run A :=
  match r with
  | Ok a => Done a
  | Err msg => Failed (ExchangeError msg)
  end.

(** *** Strings and falsy values *)

Definition lower_ascii (c : ascii) : ascii :=
  let n := nat_of_ascii c in
  if (65 <=? n)%nat && (n <=? 90)%nat then ascii_of_nat (n + 32) else c.

(** [s.lower()], on the letters A to Z. *)
Fixpoint lower (s : string) : string :=
  match s with
  | EmptyString => EmptyString
  | String c rest => String (lower_ascii c) (lower rest)
  end.

(** [needle in hay] *)
Fixpoint contains (needle hay : string) : bool :=
  String.prefix needle hay
  || match hay with
     | EmptyString => false
     | String _ rest => contains needle rest
     end.

(** [hay.startswith(p)] *)
Definition startswith (hay p : string) : bool := String.prefix p hay.

(** [x or y] on strings that may be missing: [None] and the empty string
    are falsy. *)
Definition str_or (x y : option string) : option string :=
  match x with
  | Some EmptyString | None => y
  | Some _ => x
  end.

(** [float(x or dflt)] on a number that may be missing: [None] and zero
    are falsy. *)
Definition num_or (x : option Q) (dflt : Q) : Q :=
  match x with
  | Some q => if Qeq_bool q 0 then dflt else q
  | None => dflt
  end.

(** *** What the client hands over *)

Module TradeInfo.
Record t : Set := mk {
  posSide : option string;
  positionSide : option string
}.
End TradeInfo.

Module Trade.
Record t : Set := mk {
  posSide : option string;
  info : option TradeInfo.t;
  timestamp : option Z;
  side : option string;
  amount : option Q
}.
End Trade.

Module Position.
Record t : Set := mk {
  side : option string;
  contracts : option Q;
  entryPrice : option Q;
  average : option Q
}.
End Position.

Module Market.
Record t : Set := mk {
  contractSize : option Q
}.
End Market.

(** The parameters of an order; [reduceOnly] is a key that is present,
    with the value [True], or absent. *)
Module OrderParams.
Record t : Set := mk {
  tdMode : string;
  posSide : option string;
  reduceOnly : bool;
  clOrdId : string
}.
End OrderParams.

(** The calls of the client that the two functions below make, with
    their arguments. *)
Module Exchange.
Record t : Type := mk {
  load_markets : reply (list (string * Market.t));
  market : string -> reply Market.t;
  fetch_positions : list string -> reply (list Position.t);
  fetch_my_trades : string -> nat -> reply (list Trade.t);
  amount_to_precision : string -> Q -> reply Q;
  create_order : string -> string -> string -> Q -> OrderParams.t -> reply pyval
}.
End Exchange.

(** An element of the list that [execute_actions] returns: the action
    with its [contracts], and the order of the exchange. *)
Module Executed.
Record t : Type := mk {
  action : Action.t;
  contracts : Q;
  order : pyval
}.
End Executed.

Module Live.
Definition SYMBOL : string := "BTC/USDT:USDT".
Definition TD_MODE : string := "cross".
Definition HEDGE_MODE : bool := true.

(** [_get_pos_side_from_trade] *)
Definition _get_pos_side_from_trade (trade : Trade.t) : option string :=
  let info :=
    match Trade.info trade with
    | Some i => i
    | None => TradeInfo.mk None None
    end in
  let pos_side :=
    str_or (str_or (Trade.posSide trade) (TradeInfo.posSide info))
           (TradeInfo.positionSide info) in
  match pos_side with
  | Some EmptyString | None => None
  | Some s =>
    let pos_side := lower s in
    if String.eqb pos_side "long" || String.eqb pos_side "short"
    then Some pos_side
    else None
  end.

(** The trades kept by the first loop of [_infer_tp1_done_from_trades]. *)
Definition relevant (pos_side : string) (t : Trade.t) : bool :=
  match _get_pos_side_from_trade t with
  | Some s => String.eqb s pos_side
  | None => false
  end
  && match Trade.timestamp t with
     | Some _ => true
     | None => false
     end.

(** The sort key [x["timestamp"]]; a relevant trade has one. *)
Definition timestamp_key (t : Trade.t) : Z :=
  match Trade.timestamp t with
  | Some ts => ts
  | None => 0%Z
  end.

(** [list.sort(key=...)] is stable: elements with equal keys keep their
    order.  An element is put in front of the first element whose key is
    not smaller, and the list is built from its end. *)
Fixpoint insert_by {A : Type} (key : A -> Z) (x : A) (l : list A) : list A :=
  match l with
  | [] => [x]
  | y :: rest =>
    if (key x <=? key y)%Z then x :: y :: rest
    else y :: insert_by key x rest
  end.

Definition sort_by {A : Type} (key : A -> Z) (l : list A) : list A :=
  foldr (insert_by key) [] l.

(** The order of the keys. *)
Definition key_le {A : Type} (key : A -> Z) (x y : A) : Prop :=
  (key x <= key y)%Z.

(** One iteration of the second loop, on [(net, reduced_since_open)]. *)
Definition replay_step (contract_size : Q) (pos_side : string)
    (st : Q * bool) (t : Trade.t) : Q * bool :=
  let '(net, reduced_since_open) := st in
  let side := Trade.side t in
  let amount := num_or (Trade.amount t) 0 in
  let btc := amount * contract_size in
  if Qleb btc 0 then st
  else
    let delta :=
      if String.eqb pos_side "long"
      then (if bool_decide (side = Some "buy") then btc else - btc)
      else (if bool_decide (side = Some "sell") then btc else - btc) in
    let prev_net := net in
    let net := net + delta in
    if Qleb prev_net 0 && Qltb 0 net then (net, false)
    else
      let reduced_since_open :=
        if Qltb 0 prev_net && Qltb delta 0 then true else reduced_since_open in
      let reduced_since_open :=
        if Qleb net 0 then false else reduced_since_open in
      (net, reduced_since_open).

(** Both loops: the final [net] and [reduced_since_open]. *)
Definition replay (trades : list Trade.t) (contract_size : Q) (pos_side : string)
    : Q * bool :=
  let relevant := List.filter (relevant pos_side) trades in
  let relevant := sort_by timestamp_key relevant in
  foldl (replay_step contract_size pos_side) (0, false) relevant.

Definition _infer_tp1_done_from_trades (trades : list Trade.t) (contract_size : Q)
    (pos_side : string) : bool :=
  snd (replay trades contract_size pos_side).

(** A trade that the replay takes into account: it is of the side asked
    for, carries a time, and has a positive size. *)
Definition sized (contract_size : Q) (t : Trade.t) : bool :=
  negb (Qleb (num_or (Trade.amount t) 0 * contract_size) 0).

Definition counts (contract_size : Q) (pos_side : string) (t : Trade.t) : bool :=
  relevant pos_side t && sized contract_size t.

(** [markets.get(SYMBOL) or exchange.market(SYMBOL)], then the contract
    size [float(market.get("contractSize", 1) or 1)]. *)
Fixpoint find_market (symbol : string) (markets : list (string * Market.t))
    : option Market.t :=
  match markets with
  | [] => None
  | (k, m) :: rest => if String.eqb k symbol then Some m else find_market symbol rest
  end.

Definition contract_size_of (ex : Exchange.t) (markets : list (string * Market.t))
    : run Q :=
  and_then
    match find_market SYMBOL markets with
    | Some m => Done m
    | None => call (Exchange.market ex SYMBOL)
    end
    (fun market => Done (num_or (Market.contractSize market) 1)).

(** One iteration of the loop over the positions, on
    [(long_entry, short_entry)]. *)
Definition position_step (trades : list Trade.t) (contract_size : Q)
    (st : option Entry.t * option Entry.t) (p : Position.t)
    : option Entry.t * option Entry.t :=
  let '(long_entry, short_entry) := st in
  let side :=
    lower match str_or (Position.side p) (Some "") with
          | Some s => s
          | None => ""
          end in
  let contracts := num_or (Position.contracts p) 0 in
  if Qleb contracts 0 then st
  else
    let btc_size := contracts * contract_size in
    let entry_price := num_or (Position.entryPrice p) 0 in
    let entry_price :=
      if Qleb entry_price 0 then num_or (Position.average p) 0 else entry_price in
    if Qleb entry_price 0 then st
    else if String.eqb side "long" then
      let tp1_done :=
        if HEDGE_MODE then _infer_tp1_done_from_trades trades contract_size "long"
        else false in
      (Some (Entry.mk entry_price btc_size tp1_done), short_entry)
    else if String.eqb side "short" then
      let tp1_done :=
        if HEDGE_MODE then _infer_tp1_done_from_trades trades contract_size "short"
        else false in
      (long_entry, Some (Entry.mk entry_price btc_size tp1_done))
    else st.

Definition entry_list (e : option Entry.t) : list Entry.t :=
  match e with
  | Some x => [x]
  | None => []
  end.

(** What the loop over the positions keeps true of the entry of a side:
    a positive price, and a size that is a positive number of contracts. *)
Definition rebuilt (contract_size : Q) (x : option Entry.t) : Prop :=
  forall e, x = Some e ->
    0 < Entry.price e
    /\ exists contracts, 0 < contracts /\ Entry.size e = contracts * contract_size.

(** [sync_state_from_exchange]; the result is the state as the function
    leaves it. *)
Definition sync_state_from_exchange (ex : Exchange.t) (state : StrategyState.t)
    : run StrategyState.t :=
  and_then
    match Exchange.load_markets ex with
    | Ok markets => Done markets
    | Err msg =>
      if contains "50101" msg
         || contains "does not match current environment" msg
      then Failed (RuntimeError msg)
      else Failed (ExchangeError msg)
    end
    (fun markets =>
  and_then (contract_size_of ex markets) (fun contract_size =>
  let positions :=
    match Exchange.fetch_positions ex [SYMBOL] with
    | Ok ps => ps
    | Err _ => []
    end in
  let trades :=
    match Exchange.fetch_my_trades ex SYMBOL 300 with
    | Ok ts => ts
    | Err _ => []
    end in
  let '(long_entry, short_entry) :=
    foldl (position_step trades contract_size) (None, None) positions in
  Done (StrategyState.mk (StrategyState.params state)
          (entry_list long_entry) (entry_list short_entry)
          (StrategyState.completed_long_trades state)
          (StrategyState.completed_short_trades state)))).

(** The parameters that [execute_actions] gives to an order; [now] is
    the reading [int(time.time())]. *)
Definition order_params (op : string) (now : Z) : OrderParams.t :=
  let pos_side := if contains "long" op then "long" else "short" in
  OrderParams.mk TD_MODE
    (if HEDGE_MODE then Some pos_side else None)
    (startswith op "tp1_" || startswith op "tp2_" || startswith op "sl_")
    ("btc_" ++ String.substring 0 10 op ++ "_"
     ++ NilZero.string_of_int (Z.to_int now)).

(** The loop of [execute_actions] from the action of index [n] on;
    [clock n] is the time read while that action is handled. *)
Fixpoint place_orders (ex : Exchange.t) (clock : nat -> Z) (contract_size : Q)
    (n : nat) (actions : list Action.t) (executed : list Executed.t)
    : run (list Executed.t) :=
  match actions with
  | [] => Done executed
  | act :: rest =>
    let continue := place_orders ex clock contract_size (S n) rest in
    let side := Action.side act in
    let btc_size := Action.size act in
    if Qleb btc_size 0 then continue executed
    else
      let op := Action.op act in
      let params := order_params op (clock n) in
      if Qeq_bool contract_size 0 then Failed DivisionByZero
      else
        let contracts := btc_size / contract_size in
        if Qleb contracts 0 then continue executed
        else
          and_then (call (Exchange.amount_to_precision ex SYMBOL contracts))
            (fun contracts =>
          if Qleb contracts 0 then continue executed
          else
            and_then (call (Exchange.create_order ex SYMBOL "market" side
                              contracts params))
              (fun order =>
            continue (executed ++ [Executed.mk act contracts order])%list))
  end.

(** An element of the returned list stands for an order that was sent:
    for one of the actions, of positive size and a positive number of
    contracts, with the parameters that belong to the tag of the action,
    and answered by the exchange with the order kept. *)
Definition placed (ex : Exchange.t) (clock : nat -> Z) (actions : list Action.t)
    (item : Executed.t) : Prop :=
  Executed.action item ∈ actions
  /\ 0 < Action.size (Executed.action item)
  /\ 0 < Executed.contracts item
  /\ exists n,
       Exchange.create_order ex SYMBOL "market"
         (Action.side (Executed.action item)) (Executed.contracts item)
         (order_params (Action.op (Executed.action item)) (clock n))
       = Ok (Executed.order item).

Definition execute_actions (ex : Exchange.t) (clock : nat -> Z)
    (actions : list Action.t) : run (list Executed.t) :=
  and_then (call (Exchange.load_markets ex)) (fun markets =>
  and_then (contract_size_of ex markets) (fun contract_size =>
  place_orders ex clock contract_size 0 actions [])).
End Live.

(** *** Sample replies of the exchange *)

Module LiveSample.
(** A long position of 10 contracts opened at time 1 and reduced by 4 at
    time 2; the second trade has its side in the raw [info] only. *)
Definition bought : Trade.t :=
  Trade.mk (Some "long") None (Some 1%Z) (Some "buy") (Some 10).
Definition sold : Trade.t :=
  Trade.mk None (Some (TradeInfo.mk (Some "LONG") None)) (Some 2%Z)
    (Some "sell") (Some 4).

(** Trades that do not count for the long side: one of the short side,
    one without a time, one without an amount. *)
Definition shorted : Trade.t :=
  Trade.mk (Some "short") None (Some 3%Z) (Some "sell") (Some 5).
Definition undated : Trade.t :=
  Trade.mk (Some "long") None None (Some "sell") (Some 10).
Definition empty_fill : Trade.t :=
  Trade.mk (Some "long") None (Some 4%Z) (Some "sell") (Some 0).

Definition held_long : Position.t :=
  Position.mk (Some "long") (Some 6) (Some 100) None.
Definition closed_short : Position.t :=
  Position.mk (Some "short") (Some 0) (Some 100) None.

(** An exchange whose market has contracts of 0.01 BTC, that knows one
    long position and the two trades behind it, rounds nothing and fills
    every order. *)
Definition exchange : Exchange.t :=
  Exchange.mk
    (Ok [(Live.SYMBOL, Market.mk (Some 0.01))])
    (fun _ => Err "unknown symbol")
    (fun _ => Ok [held_long; closed_short])
    (fun _ _ => Ok [sold; bought])
    (fun _ x => Ok x)
    (fun _ _ _ _ _ => Ok (PStr "filled")).

(** An exchange that refuses the credentials. *)
Definition refusing : Exchange.t :=
  Exchange.mk
    (Err "okx 50101 APIKey does not match current environment")
    (fun _ => Err "unknown symbol")
    (fun _ => Err "no positions")
    (fun _ _ => Err "no trades")
    (fun _ x => Ok x)
    (fun _ _ _ _ _ => Err "rejected").

Definition clock (n : nat) : Z := (1730000000 + Z.of_nat n)%Z.
End LiveSample.

(** ** The three tests in binary64

    The profit of an entry and the tests of lines 147 to 176 and of
    [should_stop_loss], on the doubles that Python computes with; the
    divisor is taken to be non-zero. *)

Module Binary64.
Definition pnl_pct (d : book) (price entry_price : float) : float :=
  match d with
  | Long => (price / entry_price - 1)%float
  | Short => (entry_price / price - 1)%float
  end.

Definition tp1_hit (tp1_pct pnl : float) (tp1_done : bool) : bool :=
  negb tp1_done && PrimFloat.leb tp1_pct pnl.

Definition sl_hit (sl_pct pnl : float) : bool :=
  negb (PrimFloat.leb sl_pct 0) && PrimFloat.leb pnl (- sl_pct)%float.

Definition tp2_hit (tp2_pct pnl : float) (tp1_done : bool) : bool :=
  tp1_done && PrimFloat.leb tp2_pct pnl.

Definition first_hit (tp1_pct sl_pct tp2_pct pnl : float) (tp1_done : bool)
    : option exit_kind :=
  if tp1_hit tp1_pct pnl tp1_done then Some Tp1
  else if sl_hit sl_pct pnl then Some Sl
  else if tp2_hit tp2_pct pnl tp1_done then Some Tp2
  else None.

(** The default thresholds, as the doubles nearest to 0.08, 0.18 and 0.14. *)
Definition tp1_default : float := 0x1.47ae147ae147bp-4%float.
Definition sl_default : float := 0x1.70a3d70a3d70ap-3%float.
Definition tp2_default : float := 0x1.1eb851eb851ecp-3%float.

(** The first test that holds, with the default thresholds, for a long
    entry bought at [entry_price] when the close is [price]. *)
Definition default_hit (price entry_price : float) (tp1_done : bool)
    : option exit_kind :=
  first_hit tp1_default sl_default tp2_default
    (pnl_pct Long price entry_price) tp1_done.
End Binary64.

(** * Properties *)

Import StrategyState.

(** ** Comparisons and division *)

Lemma Qleb_true x y : Qleb x y = true <-> x <= y.
Proof. apply Qle_bool_iff. Qed.

Lemma Qleb_false x y : Qleb x y = false <-> y < x.
Proof.
  unfold Qleb. split; intros H.
  - apply Qnot_le_lt. intros Hle. apply Qle_bool_iff in Hle. congruence.
  - destruct (Qle_bool x y) eqn:E; [|reflexivity].
    apply Qle_bool_iff in E. exfalso. exact (Qlt_not_le _ _ H E).
Qed.

Lemma Qltb_true x y : Qltb x y = true <-> x < y.
Proof. unfold Qltb, Qlt. apply Z.ltb_lt. Qed.

Lemma truediv_nonzero x y : ~ y == 0 -> truediv x y = Returned (x / y).
Proof.
  intros H. unfold truediv.
  destruct (Qeq_bool y 0) eqn:E; [|reflexivity].
  apply Qeq_bool_iff in E. contradiction.
Qed.

Lemma truediv_pos x y : 0 < y -> truediv x y = Returned (x / y).
Proof.
  intros H. apply truediv_nonzero. intros E. rewrite E in H.
  exact (Qlt_irrefl _ H).
Qed.

Lemma should_stop_loss_long ep cp sl :
  ~ ep == 0 ->
  should_stop_loss ep cp "long" sl
  = Returned (negb (Qleb sl 0) && Qleb (cp / ep - 1) (- sl)).
Proof.
  intros H. unfold should_stop_loss. destruct (Qleb sl 0); [reflexivity|].
  simpl. rewrite truediv_nonzero by assumption. reflexivity.
Qed.

Lemma should_stop_loss_short ep cp sl :
  0 < cp ->
  should_stop_loss ep cp "short" sl
  = Returned (negb (Qleb sl 0) && Qleb (ep / cp - 1) (- sl)).
Proof.
  intros H. unfold should_stop_loss. destruct (Qleb sl 0); [reflexivity|].
  simpl. rewrite truediv_pos by assumption. reflexivity.
Qed.

(** ** The prologue *)

Lemma max_period_ge p : (120 <= max_period p)%nat.
Proof. unfold max_period. lia. Qed.

(** The prologue raises nothing: with enough history both positions read
    from the series exist. *)
Lemma read_bar_total p df : exists ob, read_bar p df = Returned ob.
Proof.
  unfold read_bar. destruct (column "close" df) as [close|]; [|eauto].
  destruct (length close <? max_period p + 1)%nat eqn:Hlen; [eauto|].
  apply Nat.ltb_ge in Hlen. pose proof (max_period_ge p) as Hm.
  unfold iloc.
  destruct (lookup_lt_is_Some_2 close (length close - 1)) as [x ->]; [lia|].
  destruct (lookup_lt_is_Some_2 close (length close - 1 - 1)) as [y ->]; [lia|].
  simpl. destruct (Qleb x 0); eauto.
Qed.

Lemma read_bar_price_pos p df b :
  read_bar p df = Returned (Some b) -> 0 < price b.
Proof.
  unfold read_bar. destruct (column "close" df) as [close|]; [|discriminate].
  destruct (length close <? max_period p + 1)%nat; [discriminate|].
  unfold iloc.
  destruct (close !! (length close - 1)%nat) as [x|]; [|discriminate].
  destruct (close !! (length close - 1 - 1)%nat) as [y|]; [|discriminate].
  simpl. destruct (Qleb x 0) eqn:E; [discriminate|].
  intros [= <-]. simpl. apply Qleb_false. exact E.
Qed.

Lemma read_bar_no_column p df :
  column "close" df = None -> read_bar p df = Returned None.
Proof. intros H. unfold read_bar. rewrite H. reflexivity. Qed.

Lemma read_bar_short_history p df close :
  column "close" df = Some close ->
  (length close < max_period p + 1)%nat ->
  read_bar p df = Returned None.
Proof.
  intros H Hlen. unfold read_bar. rewrite H.
  apply Nat.ltb_lt in Hlen. rewrite Hlen. reflexivity.
Qed.

Lemma read_bar_bad_price p df close x :
  column "close" df = Some close ->
  last close = Some x -> x <= 0 ->
  read_bar p df = Returned None.
Proof.
  intros H Hlast Hx.
  destruct (read_bar_total p df) as [[b|] Hb]; [|exact Hb].
  pose proof (read_bar_price_pos _ _ _ Hb) as Hpos.
  exfalso. revert Hb. unfold read_bar. rewrite H.
  destruct (length close <? max_period p + 1)%nat; [discriminate|].
  unfold iloc. rewrite last_lookup in Hlast.
  replace (length close - 1)%nat with (Nat.pred (length close)) by lia.
  rewrite Hlast. simpl.
  destruct (close !! (Nat.pred (length close) - 1)%nat); [|discriminate].
  simpl. apply Qleb_true in Hx. rewrite Hx. discriminate.
Qed.

(** C8: degraded input (no [close] column, a close series shorter than
    [max(ma_fast, ma_slow, 120) + 1], or a current close that is not
    positive) makes [process_bar] return the empty action list and leave
    the whole state as it was, whatever the ledgers and the shape of the
    series. *)
Theorem process_bar_degraded_input self df account_value cash :
  (column "close" df = None
   \/ (exists close, column "close" df = Some close
                     /\ (length close < max_period (params self) + 1)%nat)
   \/ (exists close x, column "close" df = Some close
                       /\ last close = Some x /\ x <= 0)) ->
  process_bar self df account_value cash = Returned (self, []).
Proof.
  intros H. unfold process_bar.
  assert (read_bar (params self) df = Returned None) as ->; [|reflexivity].
  destruct H as [H | [(close & H & Hlen) | (close & x & H & Hlast & Hx)]].
  - apply read_bar_no_column; assumption.
  - eapply read_bar_short_history; eassumption.
  - eapply read_bar_bad_price; eassumption.
Qed.

(** ** The management scan *)

Lemma forallb_drop_lookup {A} (f : A -> bool) (l : list A) m j x :
  forallb f (drop m l) = true -> (m <= j)%nat -> l !! j = Some x -> f x = true.
Proof.
  intros Hall Hle Hj.
  assert (drop m l !! (j - m)%nat = Some x) as Hd.
  { rewrite lookup_drop. replace (m + (j - m))%nat with j by lia. exact Hj. }
  rewrite forallb_forall in Hall. apply Hall.
  apply list_elem_of_In. eapply list_elem_of_lookup_2. exact Hd.
Qed.

(** One iteration of the long loop, read off the three checks. *)
Lemma manage_long_S self price i e :
  long_entries self !! i = Some e ->
  pnl_defined Long e = true ->
  manage_long self price (S i)
  = match first_hit (params self) (pnl_pct Long price e) e with
    | Some k =>
      Returned (Some (exit_state self Long k i e,
                      [exit_action (params self) Long k e price]))
    | None => manage_long self price i
    end.
Proof.
  intros Hi Hdef. simpl in Hdef. apply negb_true_iff in Hdef.
  assert (~ Entry.price e == 0) as Hnz.
  { intros E. apply Qeq_bool_iff in E. congruence. }
  cbn [manage_long]. rewrite Hi.
  rewrite truediv_nonzero by exact Hnz. cbn [bind].
  rewrite should_stop_loss_long by exact Hnz. cbn [bind].
  unfold first_hit, tp1_hit, sl_hit, tp2_hit, pnl_pct.
  destruct (negb (Entry.tp1_done e)
            && Qleb (StrategyParams.tp1_pct (params self))
                    (price / Entry.price e - 1)); [reflexivity|].
  destruct (negb (Qleb (StrategyParams.sl_pct (params self)) 0)
            && Qleb (price / Entry.price e - 1)
                    (- StrategyParams.sl_pct (params self))); [reflexivity|].
  destruct (Entry.tp1_done e
            && Qleb (StrategyParams.tp2_pct (params self))
                    (price / Entry.price e - 1)); reflexivity.
Qed.

Lemma manage_short_S self price i e :
  0 < price ->
  short_entries self !! i = Some e ->
  manage_short self price (S i)
  = match first_hit (params self) (pnl_pct Short price e) e with
    | Some k =>
      Returned (Some (exit_state self Short k i e,
                      [exit_action (params self) Short k e price]))
    | None => manage_short self price i
    end.
Proof.
  intros Hpos Hi.
  cbn [manage_short]. rewrite Hi.
  rewrite truediv_pos by exact Hpos. cbn [bind].
  rewrite should_stop_loss_short by exact Hpos. cbn [bind].
  unfold first_hit, tp1_hit, sl_hit, tp2_hit, pnl_pct.
  destruct (negb (Entry.tp1_done e)
            && Qleb (StrategyParams.tp1_pct (params self))
                    (Entry.price e / price - 1)); [reflexivity|].
  destruct (negb (Qleb (StrategyParams.sl_pct (params self)) 0)
            && Qleb (Entry.price e / price - 1)
                    (- StrategyParams.sl_pct (params self))); [reflexivity|].
  destruct (Entry.tp1_done e
            && Qleb (StrategyParams.tp2_pct (params self))
                    (Entry.price e / price - 1)); reflexivity.
Qed.

Lemma quiet_inv p d price e :
  quiet p d price e = true ->
  pnl_defined d e = true /\ first_hit p (pnl_pct d price e) e = None.
Proof.
  unfold quiet. intros H. apply andb_true_iff in H as [H1 H2]. split; [exact H1|].
  destruct (first_hit p (pnl_pct d price e) e); [discriminate|reflexivity].
Qed.

(** The loop walks past quiet entries. *)
Lemma manage_long_skip self price m n :
  (m <= n <= length (long_entries self))%nat ->
  forallb (quiet (params self) Long price) (drop m (long_entries self)) = true ->
  manage_long self price n = manage_long self price m.
Proof.
  intros [Hmn Hn] Hq. induction n as [|n IH].
  - replace m with 0%nat by lia. reflexivity.
  - destruct (decide (m = S n)) as [->|Hne]; [reflexivity|].
    destruct (lookup_lt_is_Some_2 (long_entries self) n) as [e He]; [lia|].
    assert (quiet (params self) Long price e = true) as Hqe.
    { eapply forallb_drop_lookup; [exact Hq| |exact He]. lia. }
    apply quiet_inv in Hqe as [Hdef Hnone].
    rewrite (manage_long_S _ _ _ _ He Hdef), Hnone. apply IH; lia.
Qed.

Lemma manage_short_skip self price m n :
  0 < price ->
  (m <= n <= length (short_entries self))%nat ->
  forallb (quiet (params self) Short price) (drop m (short_entries self)) = true ->
  manage_short self price n = manage_short self price m.
Proof.
  intros Hpos [Hmn Hn] Hq. induction n as [|n IH].
  - replace m with 0%nat by lia. reflexivity.
  - destruct (decide (m = S n)) as [->|Hne]; [reflexivity|].
    destruct (lookup_lt_is_Some_2 (short_entries self) n) as [e He]; [lia|].
    assert (quiet (params self) Short price e = true) as Hqe.
    { eapply forallb_drop_lookup; [exact Hq| |exact He]. lia. }
    apply quiet_inv in Hqe as [_ Hnone].
    rewrite (manage_short_S _ _ _ _ Hpos He), Hnone. apply IH; lia.
Qed.

(** The scan stops at the first entry on which a condition trips. *)
Lemma manage_first_trigger self price d i e k :
  0 < price ->
  entries d self !! i = Some e ->
  pnl_defined d e = true ->
  reached self price d i = true ->
  first_hit (params self) (pnl_pct d price e) e = Some k ->
  manage self price
  = Returned (exit_state self d k i e, [exit_action (params self) d k e price]).
Proof.
  intros Hpos Hi Hdef Hreach Hk. unfold manage, or_else.
  destruct d; simpl in Hi, Hreach.
  - pose proof (lookup_lt_Some _ _ _ Hi) as Hlt.
    rewrite (manage_long_skip self price (S i)); [|lia|exact Hreach].
    rewrite (manage_long_S _ _ _ _ Hi Hdef), Hk. reflexivity.
  - apply andb_true_iff in Hreach as [Hlong Hshort].
    pose proof (lookup_lt_Some _ _ _ Hi) as Hlt.
    rewrite (manage_long_skip self price 0); [|lia|exact Hlong].
    cbn [manage_long bind].
    rewrite (manage_short_skip self price (S i)); [|exact Hpos|lia|exact Hshort].
    rewrite (manage_short_S _ _ _ _ Hpos Hi), Hk. reflexivity.
Qed.

Lemma manage_all_quiet self price :
  0 < price ->
  forallb (quiet (params self) Long price) (long_entries self) = true ->
  forallb (quiet (params self) Short price) (short_entries self) = true ->
  manage self price = Returned (self, []).
Proof.
  intros Hpos Hlong Hshort. unfold manage, or_else.
  rewrite (manage_long_skip self price 0); [|lia|exact Hlong].
  cbn [manage_long bind].
  rewrite (manage_short_skip self price 0); [|exact Hpos|lia|exact Hshort].
  reflexivity.
Qed.

(** When the bar opens no position, [process_bar] is the management scan
    at the current close. *)
Lemma process_bar_scan self df account_value cash price :
  scan_price self df account_value cash = Some price ->
  0 < price /\ process_bar self df account_value cash = manage self price.
Proof.
  unfold scan_price, process_bar.
  destruct (read_bar (params self) df) as [[b|]|] eqn:Hb; try discriminate.
  pose proof (read_bar_price_pos _ _ _ Hb) as Hpos.
  cbn [bind]. unfold or_else, open_long, open_short.
  destruct (long_signal b); cbn [andb orb].
  - destruct (Qleb (account_value * StrategyParams.buy_pct (params self)) cash);
      cbn [orb]; [discriminate|].
    destruct (short_signal b); [discriminate|].
    intros [= <-]. split; [exact Hpos|reflexivity].
  - destruct (short_signal b); [discriminate|].
    intros [= <-]. split; [exact Hpos|reflexivity].
Qed.

(** C1: when the bar opens no position, the scan visits the long entries
    from the newest to the oldest and then the short entries the same way;
    on each entry the checks run in the order tier-1 take-profit,
    stop-loss (the test of [should_stop_loss]), tier-2 take-profit.  The
    first condition that trips, on the
    first entry where one trips, yields the single action of the call and
    ends the scan: the older entries and the later checks play no part.
    When nothing trips the call returns no action and changes nothing. *)
Theorem scan_first_trigger_wins self df account_value cash price :
  scan_price self df account_value cash = Some price ->
  (forall d i e k,
      entries d self !! i = Some e ->
      pnl_defined d e = true ->
      reached self price d i = true ->
      first_hit (params self) (pnl_pct d price e) e = Some k ->
      process_bar self df account_value cash
      = Returned (exit_state self d k i e,
                  [exit_action (params self) d k e price]))
  /\ (forallb (quiet (params self) Long price) (long_entries self) = true ->
      forallb (quiet (params self) Short price) (short_entries self) = true ->
      process_bar self df account_value cash = Returned (self, [])).
Proof.
  intros Hscan. apply process_bar_scan in Hscan as [Hpos ->]. split.
  - intros d i e k Hi Hdef Hreach Hk. apply manage_first_trigger; assumption.
  - intros Hlong Hshort. apply manage_all_quiet; assumption.
Qed.

(** At 114 the newest long entry of the crowded ledger takes its tier-1
    profit, although the entry below it has reached tier 2 and the oldest
    one cannot be valued. *)
Lemma scan_first_trigger_wins_witness :
  process_bar Sample.crowded (Sample.flat 114) 1000 1000
  = Returned (exit_state Sample.crowded Long Tp1 2 Sample.fresh,
              [Action.mk "tp1_long" "sell" (1 * 0.9) 114 None]).
Proof.
  apply (proj1 (scan_first_trigger_wins Sample.crowded (Sample.flat 114)
                  1000 1000 114 eq_refl) Long 2%nat Sample.fresh Tp1);
    reflexivity.
Defined.

(** ** The three exits *)


Lemma exit_ledger_same self d k i e :
  entries d (exit_state self d k i e)
  = exit_ledger (params self) k i e (entries d self).
Proof. destruct d; reflexivity. Qed.



Lemma exit_params self d k i e : params (exit_state self d k i e) = params self.
Proof. destruct d; reflexivity. Qed.







(** A frame without a [close] column. *)
Lemma process_bar_degraded_input_witness :
  column "close" [("open", [1; 2; 3])] = None
  /\ process_bar Sample.crowded [("open", [1; 2; 3])] 1000 1000
     = Returned (Sample.crowded, []).
Proof.
  split; [reflexivity|].
  apply process_bar_degraded_input. left. reflexivity.
Defined.

(** ** Opening a position *)

Lemma nan_lt_below x ma : nan_lt (Some x) ma = true <-> below x ma.
Proof.
  destruct ma as [v|]; simpl; [apply Qltb_true|].
  split; [discriminate|contradiction].
Qed.

Lemma nan_lt_above x ma : nan_lt ma (Some x) = true <-> above x ma.
Proof.
  destruct ma as [v|]; simpl; [apply Qltb_true|].
  split; [discriminate|contradiction].
Qed.

Lemma long_signal_bullish b : long_signal b = true <-> bullish b.
Proof.
  unfold long_signal, bullish. rewrite !andb_true_iff.
  rewrite !nan_lt_below, !nan_lt_above. tauto.
Qed.

Lemma short_signal_bearish b : short_signal b = true <-> bearish b.
Proof.
  unfold short_signal, bearish. rewrite !andb_true_iff.
  rewrite !nan_lt_below, !nan_lt_above. tauto.
Qed.

(** The previous close cannot lie on both sides of the fast average. *)
Lemma bearish_not_bullish b : bearish b -> long_signal b = false.
Proof.
  intros (Hab & _). destruct (long_signal b) eqn:E; [|reflexivity].
  apply long_signal_bullish in E as (Hbe & _). exfalso.
  unfold above in Hab. unfold below in Hbe.
  destruct (prev_ma_fast b) as [v|]; [|contradiction].
  exact (Qlt_irrefl _ (Qlt_trans _ _ _ Hab Hbe)).
Qed.

(** C4: on a usable bar, a bullish crossover with cash of at least
    buyAmount = accountEquity * buy_pct appends a long entry of size
    buyAmount / price, [tp1_done] false, and returns the one [open_long]
    action (side, size, price, notional), whatever the ledgers hold; with
    less cash no long entry is opened and control passes on, to the
    bearish test and from there to the management scan; a bearish
    crossover appends a short entry of the same sizing and returns the one
    [open_short] action, whatever the cash. *)
Theorem entry_signals self df account_value cash b :
  read_bar (params self) df = Returned (Some b) ->
  (bullish b ->
   account_value * StrategyParams.buy_pct (params self) <= cash ->
   process_bar self df account_value cash
   = Returned
       (with_long_entries self
          (long_entries self
           ++ [Entry.mk (price b)
                 (account_value * StrategyParams.buy_pct (params self) / price b)
                 false]),
        [Action.mk "open_long" "buy"
           (account_value * StrategyParams.buy_pct (params self) / price b)
           (price b)
           (Some (account_value * StrategyParams.buy_pct (params self)))]))
  /\ (bullish b ->
      cash < account_value * StrategyParams.buy_pct (params self) ->
      process_bar self df account_value cash = manage self (price b))
  /\ (bearish b ->
      process_bar self df account_value cash
      = Returned
          (with_short_entries self
             (short_entries self
              ++ [Entry.mk (price b)
                    (account_value * StrategyParams.buy_pct (params self) / price b)
                    false]),
           [Action.mk "open_short" "sell"
              (account_value * StrategyParams.buy_pct (params self) / price b)
              (price b)
              (Some (account_value * StrategyParams.buy_pct (params self)))])).
Proof.
  intros Hb. pose proof (read_bar_price_pos _ _ _ Hb) as Hpos.
  unfold process_bar. rewrite Hb. cbn [bind].
  unfold or_else, open_long, open_short.
  split; [|split].
  - intros Hbull Hcash. apply long_signal_bullish in Hbull. rewrite Hbull.
    apply Qleb_true in Hcash. rewrite Hcash.
    rewrite truediv_pos by exact Hpos. reflexivity.
  - intros Hbull Hcash. pose proof Hbull as Hlong.
    apply long_signal_bullish in Hlong. rewrite Hlong.
    apply Qleb_false in Hcash. rewrite Hcash. cbn [bind].
    destruct (short_signal b) eqn:Hshort; [|reflexivity].
    apply short_signal_bearish, bearish_not_bullish in Hshort. congruence.
  - intros Hbear. rewrite (bearish_not_bullish _ Hbear). cbn [bind].
    apply short_signal_bearish in Hbear. rewrite Hbear.
    rewrite truediv_pos by exact Hpos. reflexivity.
Qed.

(** Scenario A of the specification, and its mirror image with no cash. *)
Lemma entry_signals_witness :
  process_bar (Sample.one_long Sample.halved) Sample.rising 1000 150
  = Returned
      (with_long_entries (Sample.one_long Sample.halved)
         [Sample.halved; Entry.mk 120 (1000 * 0.15 / 120) false],
       [Action.mk "open_long" "buy" (1000 * 0.15 / 120) 120 (Some (1000 * 0.15))])
  /\ process_bar (Sample.one_long Sample.halved) Sample.falling 1000 0
     = Returned
         (with_short_entries (Sample.one_long Sample.halved)
            [Entry.mk 80 (1000 * 0.15 / 80) false],
          [Action.mk "open_short" "sell" (1000 * 0.15 / 80) 80 (Some (1000 * 0.15))]).
Proof.
  split.
  - apply (proj1 (entry_signals (Sample.one_long Sample.halved) Sample.rising
                    1000 150 Sample.rising_bar eq_refl)).
    + repeat split.
    + apply Qleb_true. reflexivity.
  - apply (proj2 (proj2 (entry_signals (Sample.one_long Sample.halved)
                           Sample.falling 1000 0 Sample.falling_bar eq_refl))).
    repeat split.
Defined.

(** ** Every outcome of a call *)

Lemma manage_long_cases self price n :
  (n <= length (long_entries self))%nat ->
  match manage_long self price n with
  | Returned (Some r) =>
    exists i e k,
      long_entries self !! i = Some e
      /\ r = (exit_state self Long k i e, [exit_action (params self) Long k e price])
  | Returned None => True
  | Raised ex => ex = ZeroDivisionError /\ unpriced_long self
  end.
Proof.
  induction n as [|n IH]; intros Hn; [exact I|].
  destruct (lookup_lt_is_Some_2 (long_entries self) n) as [e He]; [lia|].
  destruct (Qeq_bool (Entry.price e) 0) eqn:Hz.
  - cbn [manage_long]. rewrite He. unfold truediv. rewrite Hz. cbn [bind].
    split; [reflexivity|]. exists n, e. split; [exact He|].
    apply Qeq_bool_iff. exact Hz.
  - rewrite (manage_long_S _ _ _ _ He); [|simpl; rewrite Hz; reflexivity].
    destruct (first_hit (params self) (pnl_pct Long price e) e) as [k|].
    + exists n, e, k. split; [exact He|reflexivity].
    + apply IH. lia.
Qed.

Lemma manage_short_cases self price n :
  0 < price ->
  (n <= length (short_entries self))%nat ->
  match manage_short self price n with
  | Returned (Some r) =>
    exists i e k,
      short_entries self !! i = Some e
      /\ r = (exit_state self Short k i e, [exit_action (params self) Short k e price])
  | Returned None => True
  | Raised ex => False
  end.
Proof.
  intros Hpos. induction n as [|n IH]; intros Hn; [exact I|].
  destruct (lookup_lt_is_Some_2 (short_entries self) n) as [e He]; [lia|].
  rewrite (manage_short_S _ _ _ _ Hpos He).
  destruct (first_hit (params self) (pnl_pct Short price e) e) as [k|].
  - exists n, e, k. split; [exact He|reflexivity].
  - apply IH. lia.
Qed.

Lemma manage_cases self account_value price :
  0 < price ->
  match manage self price with
  | Returned r => bar_effect self account_value r
  | Raised ex => ex = ZeroDivisionError /\ unpriced_long self
  end.
Proof.
  intros Hpos. unfold manage, or_else.
  pose proof (manage_long_cases self price (length (long_entries self))
                (Nat.le_refl _)) as Hl.
  destruct (manage_long self price (length (long_entries self)))
    as [[r|]|ex]; cbn [bind].
  - destruct Hl as (i & e & k & Hi & ->).
    apply (effect_exit self account_value price Long); assumption.
  - pose proof (manage_short_cases self price (length (short_entries self))
                  Hpos (Nat.le_refl _)) as Hs.
    destruct (manage_short self price (length (short_entries self)))
      as [[r|]|ex]; cbn [bind].
    + destruct Hs as (i & e & k & Hi & ->).
      apply (effect_exit self account_value price Short); assumption.
    + apply effect_none.
    + contradiction.
  - exact Hl.
Qed.

Lemma process_bar_cases self df account_value cash :
  match process_bar self df account_value cash with
  | Returned r => bar_effect self account_value r
  | Raised ex => ex = ZeroDivisionError /\ unpriced_long self
  end.
Proof.
  unfold process_bar.
  destruct (read_bar_total (params self) df) as [[b|] Hb]; rewrite Hb; cbn [bind].
  2: apply effect_none.
  pose proof (read_bar_price_pos _ _ _ Hb) as Hpos.
  unfold or_else, open_long, open_short.
  destruct (long_signal b).
  - destruct (Qleb (account_value * StrategyParams.buy_pct (params self)) cash).
    + rewrite truediv_pos by exact Hpos. cbn [bind].
      apply effect_open_long. exact Hpos.
    + cbn [bind]. destruct (short_signal b).
      * rewrite truediv_pos by exact Hpos. cbn [bind].
        apply effect_open_short. exact Hpos.
      * cbn [bind]. apply manage_cases. exact Hpos.
  - cbn [bind]. destruct (short_signal b).
    + rewrite truediv_pos by exact Hpos. cbn [bind].
      apply effect_open_short. exact Hpos.
    + cbn [bind]. apply manage_cases. exact Hpos.
Qed.

(** C5: whatever the frame, the equity, the cash and the starting state,
    the list that a call returns has at most one element (and the only
    exception a call can raise is a division by a zero entry price). *)
Theorem at_most_one_action self df account_value cash :
  match process_bar self df account_value cash with
  | Returned (_, actions) => (length actions <= 1)%nat
  | Raised ex => ex = ZeroDivisionError
  end.
Proof.
  pose proof (process_bar_cases self df account_value cash) as H.
  destruct (process_bar self df account_value cash) as [[s' actions]|ex].
  - inversion H; subst; simpl; lia.
  - apply H.
Qed.

(** C9: when every entry of the ledgers has a positive price, a call
    returns, whatever the series, the equity and the cash: no division
    meets a zero divisor. *)
Theorem process_bar_total self df account_value cash :
  ledgers_priced self ->
  exists r, process_bar self df account_value cash = Returned r.
Proof.
  intros [Hlong _].
  pose proof (process_bar_cases self df account_value cash) as H.
  destruct (process_bar self df account_value cash) as [r|ex]; [eauto|].
  exfalso. destruct H as (_ & i & e & Hi & Hz).
  rewrite Forall_lookup in Hlong. specialize (Hlong i e Hi). cbn beta in Hlong.
  rewrite Hz in Hlong. exact (Qlt_irrefl _ Hlong).
Qed.

Lemma process_bar_total_witness :
  ledgers_priced (Sample.one_long Sample.fresh)
  /\ exists r,
       process_bar (Sample.one_long Sample.fresh) (Sample.flat 50) 1000 1000
       = Returned r.
Proof.
  assert (ledgers_priced (Sample.one_long Sample.fresh)) as H.
  { split; repeat constructor. }
  split; [exact H|].
  apply (process_bar_total (Sample.one_long Sample.fresh) (Sample.flat 50)
           1000 1000 H).
Defined.

(** ** Sizes in the ledgers *)

Lemma tier1_remainder_pos size prop :
  0 < size -> prop < 1 -> 0 < size - size * prop.
Proof.
  intros Hs Hp.
  assert (size - size * prop == size * (1 - prop)) as -> by ring.
  apply Qmult_lt_0_compat; [exact Hs|].
  unfold Qminus. apply -> Qlt_minus_iff. exact Hp.
Qed.

Lemma exit_ledger_sized p k i e es :
  StrategyParams.tp1_sell_prop p < 1 ->
  es !! i = Some e ->
  Forall (fun x => 0 < Entry.size x) es ->
  Forall (fun x => 0 < Entry.size x) (exit_ledger p k i e es).
Proof.
  intros Hp Hi Hall.
  assert (0 < Entry.size e) as He.
  { rewrite Forall_lookup in Hall. exact (Hall i e Hi). }
  destruct k; cbn [exit_ledger].
  - apply Forall_insert; [exact Hall|]. cbn [Entry.size].
    apply tier1_remainder_pos; assumption.
  - apply Forall_delete. exact Hall.
  - apply Forall_delete. exact Hall.
Qed.

Lemma opened_entry_sized amount price :
  0 < amount -> 0 < price ->
  Forall (fun x => 0 < Entry.size x) [Entry.mk price (amount / price) false].
Proof.
  intros Ha Hp. repeat constructor. cbn [Entry.size].
  apply Qmult_lt_0_compat; [exact Ha|]. apply Qinv_lt_0_compat. exact Hp.
Qed.

(** C7, as the code has it: [process_bar] never removes an entry because
    of its size, so the ledgers stay free of entries of size at most 0
    only when tier-1 closes a proper part of an entry
    (0 < tp1_sell_prop < 1) and a newly opened entry has a positive
    notional (accountEquity * buy_pct > 0). *)
Theorem sizes_stay_positive self df account_value cash s' actions :
  ledgers_sized self ->
  0 < StrategyParams.tp1_sell_prop (params self) ->
  StrategyParams.tp1_sell_prop (params self) < 1 ->
  0 < account_value * StrategyParams.buy_pct (params self) ->
  process_bar self df account_value cash = Returned (s', actions) ->
  ledgers_sized s'.
Proof.
  intros [Hlong Hshort] _ Hprop Hamount Hrun.
  pose proof (process_bar_cases self df account_value cash) as H.
  rewrite Hrun in H. inversion H as [|price Hpos|price Hpos|price d i e k Hpos Hi]; subst.
  - split; assumption.
  - split; [|exact Hshort]. cbn [with_long_entries long_entries].
    apply Forall_app. split; [exact Hlong|].
    apply opened_entry_sized; assumption.
  - split; [exact Hlong|]. cbn [with_short_entries short_entries].
    apply Forall_app. split; [exact Hshort|].
    apply opened_entry_sized; assumption.
  - destruct d; cbn [entries] in Hi; split; cbn [exit_state long_entries short_entries];
      try assumption; eapply exit_ledger_sized; eassumption.
Qed.

(** Scenario B again: the entry keeps a tenth of its size. *)
Lemma sizes_stay_positive_witness :
  ledgers_sized (Sample.one_long Sample.fresh)
  /\ ledgers_sized
       (exit_state (Sample.one_long Sample.fresh) Long Tp1 0 Sample.fresh).
Proof.
  assert (ledgers_sized (Sample.one_long Sample.fresh)) as H.
  { split; repeat constructor. }
  split; [exact H|].
  apply (sizes_stay_positive (Sample.one_long Sample.fresh) (Sample.flat 108)
           1000 1000 _ [Action.mk "tp1_long" "sell" (1 * 0.9) 108 None] H);
    reflexivity.
Defined.

(** With [tp1_sell_prop = 1], inside the range 0 < tp1_sell_prop <= 1, a
    tier-1 exit leaves its entry in the ledger with size 0; and with an
    equity of 0 a bullish crossover appends an entry of size 0. *)
Lemma zero_size_entry_kept :
  (ledgers_sized Sample.all_in
   /\ 0 < StrategyParams.tp1_sell_prop (params Sample.all_in)
   /\ StrategyParams.tp1_sell_prop (params Sample.all_in) <= 1
   /\ process_bar Sample.all_in (Sample.flat 108) 1000 1000
      = Returned
          (with_long_entries Sample.all_in [Entry.mk 100 (1 - 1 * 1) true],
           [Action.mk "tp1_long" "sell" (1 * 1) 108 None])
   /\ ~ ledgers_sized
          (with_long_entries Sample.all_in [Entry.mk 100 (1 - 1 * 1) true]))
  /\ (ledgers_sized StrategyState.default
      /\ 0 < StrategyParams.tp1_sell_prop (params StrategyState.default)
      /\ StrategyParams.tp1_sell_prop (params StrategyState.default) <= 1
      /\ process_bar StrategyState.default Sample.rising 0 0
         = Returned
             (with_long_entries StrategyState.default
                [Entry.mk 120 (0 * 0.15 / 120) false],
              [Action.mk "open_long" "buy" (0 * 0.15 / 120) 120
                 (Some (0 * 0.15))])
      /\ ~ ledgers_sized
             (with_long_entries StrategyState.default
                [Entry.mk 120 (0 * 0.15 / 120) false])).
Proof.
  split.
  - split; [split; repeat constructor|].
    split; [reflexivity|]. split; [discriminate|]. split; [reflexivity|].
    intros [Hlong _]. cbn in Hlong. inversion Hlong as [|x l Hx Hl]; subst.
    discriminate Hx.
  - split; [split; constructor|].
    split; [reflexivity|]. split; [discriminate|]. split; [reflexivity|].
    intros [Hlong _]. cbn in Hlong. inversion Hlong as [|x l Hx Hl]; subst.
    discriminate Hx.
Qed.

(** ** Snapshots *)

Lemma new_params_dict p kv :
  Obj.params_dict p = PDict kv -> Obj.new_params kv = Returned p.
Proof. destruct p. intros [= <-]. reflexivity. Qed.

Lemma new_entry_dict e : Obj.new_entry (Obj.entry_dict e) = Returned e.
Proof. destruct e. reflexivity. Qed.

Lemma new_entries_dicts es :
  Obj.new_entries (map Obj.entry_dict es) = Returned es.
Proof.
  induction es as [|e es IH]; [reflexivity|].
  cbn [map Obj.new_entries]. rewrite new_entry_dict. cbn [bind].
  rewrite IH. reflexivity.
Qed.

Lemma from_json_to_json o : Obj.from_json (Obj.to_json o) = Returned o.
Proof.
  destruct o as [p longs shorts cl cs].
  unfold Obj.to_json, Obj.from_json. cbn [Obj.params Obj.long_entries
    Obj.short_entries Obj.completed_long_trades Obj.completed_short_trades].
  change (kwarg "params" (PDict []) _) with (Obj.params_dict p).
  change (kwarg "long_entries" (PList []) _)
    with (PList (map Obj.entry_dict longs)).
  change (kwarg "short_entries" (PList []) _)
    with (PList (map Obj.entry_dict shorts)).
  change (kwarg "completed_long_trades" (PInt 0) _) with cl.
  change (kwarg "completed_short_trades" (PInt 0) _) with cs.
  unfold Obj.params_dict at 1.
  rewrite (new_params_dict p _ eq_refl). cbn [bind Obj.entries_of].
  rewrite !new_entries_dicts. reflexivity.
Qed.

(** Distinct well-typed states have distinct objects. *)
Lemma entry_obj_inj e1 e2 : entry_obj e1 = entry_obj e2 -> e1 = e2.
Proof. destruct e1, e2. intros [= -> -> ->]. reflexivity. Qed.

Lemma entries_obj_inj es1 es2 : map entry_obj es1 = map entry_obj es2 -> es1 = es2.
Proof.
  revert es2. induction es1 as [|e es1 IH]; intros [|e' es2] H;
    try discriminate; [reflexivity|].
  cbn [map] in H.
  assert (entry_obj e = entry_obj e') as He by congruence.
  assert (map entry_obj es1 = map entry_obj es2) as Hes by congruence.
  f_equal; [apply entry_obj_inj; exact He|apply IH; exact Hes].
Qed.

Lemma state_obj_inj s1 s2 : state_obj s1 = state_obj s2 -> s1 = s2.
Proof.
  destruct s1 as [[f1 w1 b1 t1 u1 l1 r1] lo1 sh1 cl1 cs1].
  destruct s2 as [[f2 w2 b2 t2 u2 l2 r2] lo2 sh2 cl2 cs2].
  unfold state_obj, params_obj. cbn.
  intros [= Hf Hw -> -> -> -> -> Hlo Hsh -> ->].
  apply Nat2Z.inj in Hf, Hw. apply entries_obj_inj in Hlo, Hsh. subst.
  reflexivity.
Qed.

(** C6: serialising a state and deserialising the document gives the
    state back, field for field: the parameters, both entry lists with
    their [tp1_done] flags, and both counters.  This holds for every
    instance, and so for every state whose fields have the annotated
    types. *)
Theorem snapshot_round_trip :
  (forall o : Obj.State, Obj.from_json (Obj.to_json o) = Returned o)
  /\ (forall s : StrategyState.t,
         Obj.from_json (Obj.to_json (state_obj s)) = Returned (state_obj s)).
Proof.
  split; [exact from_json_to_json|].
  intros s. apply from_json_to_json.
Qed.

Lemma new_entry_unpriced e :
  entry_unpriced e = true -> Obj.new_entry e = Raised TypeError.
Proof.
  unfold entry_unpriced, lacks, Obj.new_entry. intros H.
  destruct e as [| | | | | |kw]; try reflexivity.
  destruct (known_keywords ["price"; "size"; "tp1_done"] kw); [|reflexivity].
  destruct (dget "price" kw); [|reflexivity].
  destruct (dget "size" kw); [discriminate|reflexivity].
Qed.

Lemma new_entries_unpriced xs :
  existsb entry_unpriced xs = true -> exists ex, Obj.new_entries xs = Raised ex.
Proof.
  induction xs as [|e xs IH]; [discriminate|].
  cbn [existsb Obj.new_entries]. intros H.
  destruct (entry_unpriced e) eqn:He.
  - rewrite (new_entry_unpriced _ He). cbn [bind]. eauto.
  - cbn [orb] in H. destruct (IH H) as [ex Hex].
    destruct (Obj.new_entry e); cbn [bind]; [|eauto].
    rewrite Hex. cbn [bind]. eauto.
Qed.

Lemma kwarg_present key dflt d v : dget key d = Some v -> kwarg key dflt d = v.
Proof. unfold kwarg. intros ->. reflexivity. Qed.

Lemma kwarg_absent key dflt d : dget key d = None -> kwarg key dflt d = dflt.
Proof. unfold kwarg. intros ->. reflexivity. Qed.

(** C10, as the code has it: [from_json] raises when the document is no
    JSON object and when an entry of [long_entries] or [short_entries]
    lacks its price or its size; a document without [params], without an
    entry list or without a counter is accepted, and the missing part
    takes its default: the default parameters, the empty list, zero. *)
Theorem from_json_failures_and_defaults :
  (forall raw,
      match raw with
      | PDict _ => True
      | _ => Obj.from_json raw = Raised AttributeError
      end)
  /\ (forall d key xs,
         key = "long_entries" \/ key = "short_entries" ->
         dget key d = Some (PList xs) ->
         existsb entry_unpriced xs = true ->
         exists ex, Obj.from_json (PDict d) = Raised ex)
  /\ (forall d s,
         Obj.from_json (PDict d) = Returned s ->
         (dget "params" d = None -> Obj.params s = Obj.default_params)
         /\ (dget "long_entries" d = None -> Obj.long_entries s = [])
         /\ (dget "short_entries" d = None -> Obj.short_entries s = [])
         /\ (dget "completed_long_trades" d = None ->
             Obj.completed_long_trades s = PInt 0)
         /\ (dget "completed_short_trades" d = None ->
             Obj.completed_short_trades s = PInt 0))
  /\ Obj.from_json (PDict []) = Returned (state_obj StrategyState.default).
Proof.
  split; [|split; [|split]].
  - intros raw. destruct raw; first [exact I | reflexivity].
  - intros d key xs Hkey Hget Hbad.
    destruct (new_entries_unpriced _ Hbad) as [ex Hex].
    unfold Obj.from_json.
    destruct (match kwarg "params" (PDict []) d with
              | PDict kw => Obj.new_params kw
              | _ => Raised TypeError
              end) as [p|ex0]; cbn [bind]; [|eauto].
    destruct Hkey as [-> | ->].
    + rewrite (kwarg_present _ _ _ _ Hget). cbn [Obj.entries_of].
      rewrite Hex. cbn [bind]. eauto.
    + destruct (Obj.entries_of (kwarg "long_entries" (PList []) d));
        cbn [bind]; [|eauto].
      rewrite (kwarg_present _ _ _ _ Hget). cbn [Obj.entries_of].
      rewrite Hex. cbn [bind]. eauto.
  - intros d s. unfold Obj.from_json.
    destruct (match kwarg "params" (PDict []) d with
              | PDict kw => Obj.new_params kw
              | _ => Raised TypeError
              end) as [p|ex0] eqn:Hp; cbn [bind]; [|discriminate].
    destruct (Obj.entries_of (kwarg "long_entries" (PList []) d))
      as [longs|ex1] eqn:Hl; cbn [bind]; [|discriminate].
    destruct (Obj.entries_of (kwarg "short_entries" (PList []) d))
      as [shorts|ex2] eqn:Hs; cbn [bind]; [|discriminate].
    intros [= <-]. cbn.
    split; [|split; [|split; [|split]]]; intros Hnone.
    + rewrite (kwarg_absent _ _ _ Hnone) in Hp.
      change (Returned Obj.default_params = Returned p) in Hp.
      injection Hp as <-. reflexivity.
    + rewrite (kwarg_absent _ _ _ Hnone) in Hl. cbn in Hl. congruence.
    + rewrite (kwarg_absent _ _ _ Hnone) in Hs. cbn in Hs. congruence.
    + apply kwarg_absent. exact Hnone.
    + apply kwarg_absent. exact Hnone.
  - reflexivity.
Qed.

(** An entry without a size is refused. *)
Lemma from_json_failures_and_defaults_witness :
  exists ex, Obj.from_json Sample.sizeless_snapshot = Raised ex.
Proof.
  apply (proj1 (proj2 from_json_failures_and_defaults)
           _ "long_entries" [PDict [("price", PFloat 100)]]).
  - left. reflexivity.
  - reflexivity.
  - reflexivity.
Defined.

(** A snapshot without parameters and counters is accepted: the entry is
    loaded next to the default parameters and two zero counters. *)
Lemma bare_snapshot_accepted :
  missing_content Sample.bare_snapshot = true
  /\ Obj.from_json Sample.bare_snapshot
     = Returned (state_obj (Sample.one_long Sample.fresh)).
Proof. split; reflexivity. Qed.

(** * Further properties of the engine *)

(** ** The stop-loss helper *)

(** X3: with [sl_pct <= 0] the helper answers [False] before it divides,
    so even for zero prices; with a positive [sl_pct] it raises
    [ZeroDivisionError] on a zero entry price for a long position and on a
    zero current price for any other side. *)
Theorem stop_loss_guard_and_errors entry_price current_price side sl_pct :
  (sl_pct <= 0 ->
   should_stop_loss entry_price current_price side sl_pct = Returned false)
  /\ (0 < sl_pct -> entry_price == 0 ->
      should_stop_loss entry_price current_price "long" sl_pct
      = Raised ZeroDivisionError)
  /\ (0 < sl_pct -> side <> "long" -> current_price == 0 ->
      should_stop_loss entry_price current_price side sl_pct
      = Raised ZeroDivisionError).
Proof.
  unfold should_stop_loss, truediv. split; [|split].
  - intros H. apply Qleb_true in H. rewrite H. reflexivity.
  - intros H Hz. apply Qleb_false in H. rewrite H. cbn [String.eqb].
    apply Qeq_bool_iff in Hz. simpl. rewrite Hz. reflexivity.
  - intros H Hside Hz. apply Qleb_false in H. rewrite H.
    apply String.eqb_neq in Hside. rewrite Hside.
    apply Qeq_bool_iff in Hz. rewrite Hz. reflexivity.
Qed.

Lemma stop_loss_guard_and_errors_witness :
  should_stop_loss 0 0 "long" 0 = Returned false
  /\ should_stop_loss 0 50 "long" 0.18 = Raised ZeroDivisionError
  /\ should_stop_loss 50 0 "short" 0.18 = Raised ZeroDivisionError.
Proof.
  split; [|split].
  - apply (proj1 (stop_loss_guard_and_errors 0 0 "long" 0)). discriminate.
  - apply (proj1 (proj2 (stop_loss_guard_and_errors 0 50 "long" 0.18)));
      reflexivity.
  - apply (proj2 (proj2 (stop_loss_guard_and_errors 50 0 "short" 0.18)));
      [reflexivity|discriminate|reflexivity].
Defined.

(** ** The signals *)

(** X4: the two crossover signals never hold on the same bar, so the
    order in which [process_bar] tests them decides nothing. *)
Theorem signals_exclusive b : long_signal b && short_signal b = false.
Proof.
  destruct (short_signal b) eqn:Hs; [|apply andb_false_r].
  apply short_signal_bearish, bearish_not_bullish in Hs. rewrite Hs. reflexivity.
Qed.

(** ** Every result and its cause *)

Lemma manage_long_steps self price n :
  (n <= length (long_entries self))%nat ->
  forallb (quiet (params self) Long price) (drop n (long_entries self)) = true ->
  match manage_long self price n with
  | Returned (Some r) =>
    exists i e k,
      long_entries self !! i = Some e
      /\ pnl_defined Long e = true
      /\ reached self price Long i = true
      /\ first_hit (params self) (pnl_pct Long price e) e = Some k
      /\ r = (exit_state self Long k i e, [exit_action (params self) Long k e price])
  | Returned None =>
    forallb (quiet (params self) Long price) (long_entries self) = true
  | Raised ex =>
    ex = ZeroDivisionError
    /\ exists i e,
         long_entries self !! i = Some e
         /\ Entry.price e == 0
         /\ reached self price Long i = true
  end.
Proof.
  induction n as [|n IH]; intros Hn Hq; [exact Hq|].
  destruct (lookup_lt_is_Some_2 (long_entries self) n) as [e He]; [lia|].
  destruct (Qeq_bool (Entry.price e) 0) eqn:Hz.
  - cbn [manage_long]. rewrite He. unfold truediv. rewrite Hz. cbn [bind].
    split; [reflexivity|]. exists n, e.
    split; [exact He|]. split; [apply Qeq_bool_iff; exact Hz|exact Hq].
  - assert (pnl_defined Long e = true) as Hdef by (simpl; rewrite Hz; reflexivity).
    rewrite (manage_long_S _ _ _ _ He Hdef).
    destruct (first_hit (params self) (pnl_pct Long price e) e) as [k|] eqn:Hk.
    + exists n, e, k. repeat split; try assumption.
    + apply IH; [lia|]. rewrite (drop_S _ _ _ He). cbn [forallb].
      rewrite Hq. unfold quiet. rewrite Hdef, Hk. reflexivity.
Qed.

Lemma manage_short_steps self price n :
  0 < price ->
  forallb (quiet (params self) Long price) (long_entries self) = true ->
  (n <= length (short_entries self))%nat ->
  forallb (quiet (params self) Short price) (drop n (short_entries self)) = true ->
  match manage_short self price n with
  | Returned (Some r) =>
    exists i e k,
      short_entries self !! i = Some e
      /\ reached self price Short i = true
      /\ first_hit (params self) (pnl_pct Short price e) e = Some k
      /\ r = (exit_state self Short k i e, [exit_action (params self) Short k e price])
  | Returned None => True
  | Raised ex => False
  end.
Proof.
  intros Hpos Hlong. induction n as [|n IH]; intros Hn Hq; [exact I|].
  destruct (lookup_lt_is_Some_2 (short_entries self) n) as [e He]; [lia|].
  rewrite (manage_short_S _ _ _ _ Hpos He).
  destruct (first_hit (params self) (pnl_pct Short price e) e) as [k|] eqn:Hk.
  - exists n, e, k. split; [exact He|]. split; [|split; [exact Hk|reflexivity]].
    cbn [reached]. rewrite Hlong. exact Hq.
  - apply IH; [lia|]. rewrite (drop_S _ _ _ He). cbn [forallb].
    rewrite Hq. unfold quiet. cbn [pnl_defined]. rewrite Hk. reflexivity.
Qed.

Lemma scan_price_intro self df account_value cash b :
  read_bar (params self) df = Returned (Some b) ->
  (long_signal b
   && Qleb (account_value * StrategyParams.buy_pct (params self)) cash)
  || short_signal b = false ->
  scan_price self df account_value cash = Some (price b).
Proof. intros Hb Hno. unfold scan_price. rewrite Hb, Hno. reflexivity. Qed.

Lemma manage_steps self df account_value cash price :
  scan_price self df account_value cash = Some price ->
  match manage self price with
  | Returned r => bar_step self df account_value cash r
  | Raised ex =>
    ex = ZeroDivisionError /\ scan_meets_unpriced self df account_value cash
  end.
Proof.
  intros Hscan. pose proof (proj1 (process_bar_scan _ _ _ _ _ Hscan)) as Hpos.
  unfold manage, or_else.
  pose proof (manage_long_steps self price (length (long_entries self))
                (Nat.le_refl _)) as Hl.
  rewrite drop_all in Hl. specialize (Hl eq_refl).
  destruct (manage_long self price (length (long_entries self)))
    as [[r|]|ex]; cbn [bind].
  - destruct Hl as (i & e & k & Hi & Hdef & Hreach & Hk & ->).
    apply (step_exit self df account_value cash price Long); assumption.
  - pose proof (manage_short_steps self price (length (short_entries self))
                  Hpos Hl (Nat.le_refl _)) as Hs.
    rewrite drop_all in Hs. specialize (Hs eq_refl).
    destruct (manage_short self price (length (short_entries self)))
      as [[r|]|ex]; cbn [bind].
    + destruct Hs as (i & e & k & Hi & Hreach & Hk & ->).
      apply (step_exit self df account_value cash price Short);
        [assumption|assumption|reflexivity|assumption|assumption].
    + apply step_none.
    + contradiction.
  - destruct Hl as (-> & i & e & Hi & Hz & Hreach).
    split; [reflexivity|]. exists price, i, e. repeat split; assumption.
Qed.

Lemma process_bar_steps self df account_value cash :
  match process_bar self df account_value cash with
  | Returned r => bar_step self df account_value cash r
  | Raised ex =>
    ex = ZeroDivisionError /\ scan_meets_unpriced self df account_value cash
  end.
Proof.
  destruct (read_bar_total (params self) df) as [[b|] Hb].
  2: { unfold process_bar. rewrite Hb. cbn [bind]. apply step_none. }
  pose proof (read_bar_price_pos _ _ _ Hb) as Hpos.
  destruct ((long_signal b
             && Qleb (account_value * StrategyParams.buy_pct (params self)) cash)
            || short_signal b) eqn:Hopen.
  - unfold process_bar. rewrite Hb. cbn [bind].
    unfold or_else, open_long, open_short.
    destruct (long_signal b) eqn:Hlong; cbn [andb orb] in Hopen.
    + destruct (Qleb (account_value * StrategyParams.buy_pct (params self)) cash)
        eqn:Hcash; cbn [orb] in Hopen.
      * rewrite truediv_pos by exact Hpos. cbn [bind].
        apply (step_open_long self df account_value cash b Hb).
        -- apply long_signal_bullish. exact Hlong.
        -- apply Qleb_true. exact Hcash.
      * cbn [bind]. rewrite Hopen.
        rewrite truediv_pos by exact Hpos. cbn [bind].
        apply (step_open_short self df account_value cash b Hb).
        apply short_signal_bearish. exact Hopen.
    + cbn [bind]. rewrite Hopen.
      rewrite truediv_pos by exact Hpos. cbn [bind].
      apply (step_open_short self df account_value cash b Hb).
      apply short_signal_bearish. exact Hopen.
  - pose proof (scan_price_intro _ _ _ _ _ Hb Hopen) as Hscan.
    rewrite (proj2 (process_bar_scan _ _ _ _ _ Hscan)).
    apply manage_steps. exact Hscan.
Qed.

Lemma returned_step self df account_value cash s' actions :
  process_bar self df account_value cash = Returned (s', actions) ->
  bar_step self df account_value cash (s', actions).
Proof.
  intros Hrun. pose proof (process_bar_steps self df account_value cash) as H.
  rewrite Hrun in H. exact H.
Qed.

(** X5: whatever [process_bar] returns has one of four causes: nothing to
    do; a bullish bar with enough cash; a bearish bar; or, on a bar that
    opens no position, the first condition that holds on the first entry
    that the scan reaches.  An exit is never made for any other entry or
    condition. *)
Theorem results_have_causes self df account_value cash s' actions :
  process_bar self df account_value cash = Returned (s', actions) ->
  bar_step self df account_value cash (s', actions).
Proof.
  intros Hrun.
  pose proof (process_bar_steps self df account_value cash) as Hsteps.
  rewrite Hrun in Hsteps. exact Hsteps.
Qed.

Lemma results_have_causes_witness :
  bar_step Sample.crowded (Sample.flat 114) 1000 1000
    (exit_state Sample.crowded Long Tp1 2 Sample.fresh,
     [Action.mk "tp1_long" "sell" (1 * 0.9) 114 None]).
Proof.
  apply (results_have_causes Sample.crowded (Sample.flat 114) 1000 1000).
  reflexivity.
Defined.

Lemma first_hit_tp1_fresh p pnl e :
  first_hit p pnl e = Some Tp1 -> Entry.tp1_done e = false.
Proof.
  unfold first_hit, tp1_hit. destruct (Entry.tp1_done e); [|reflexivity].
  cbn [negb andb]. destruct (sl_hit p pnl); [discriminate|].
  destruct (tp2_hit p pnl e); discriminate.
Qed.

Lemma first_hit_done p pnl e k :
  Entry.tp1_done e = true -> first_hit p pnl e = Some k -> k <> Tp1.
Proof.
  intros Hdone Hk ->. apply first_hit_tp1_fresh in Hk. congruence.
Qed.

Lemma exit_ledger_changes p k i e es pnl :
  es !! i = Some e ->
  first_hit p pnl e = Some k ->
  exit_ledger p k i e es <> es.
Proof.
  intros Hi Hk Heq. pose proof (lookup_lt_Some _ _ _ Hi) as Hlt.
  destruct k; cbn [exit_ledger] in Heq.
  - apply first_hit_tp1_fresh in Hk.
    assert (<[i := Entry.mk (Entry.price e)
                      (Entry.size e - Entry.size e * StrategyParams.tp1_sell_prop p)
                      true]> es !! i = Some e) as Hl by (rewrite Heq; exact Hi).
    rewrite list_lookup_insert_eq in Hl by exact Hlt.
    injection Hl as Hl. rewrite <- Hl in Hk. discriminate Hk.
  - apply (f_equal length) in Heq. rewrite length_delete in Heq by eauto. lia.
  - apply (f_equal length) in Heq. rewrite length_delete in Heq by eauto. lia.
Qed.

(** X6: a call returns the empty list exactly when it leaves the state as
    it was: every returned action comes with a change of a ledger, and no
    change is made without an action. *)
Theorem no_action_iff_unchanged self df account_value cash s' actions :
  process_bar self df account_value cash = Returned (s', actions) ->
  actions = [] <-> s' = self.
Proof.
  intros Hrun. apply returned_step in Hrun.
  inversion Hrun as [|b Hb Hbull Hcash|b Hb Hbear|price d i e k Hscan Hi Hdef Hreach Hk];
    subst.
  - split; reflexivity.
  - split; [discriminate|]. intros Heq. exfalso.
    apply (f_equal long_entries) in Heq. cbn in Heq.
    apply (f_equal length) in Heq. rewrite length_app in Heq. simpl in Heq. lia.
  - split; [discriminate|]. intros Heq. exfalso.
    apply (f_equal short_entries) in Heq. cbn in Heq.
    apply (f_equal length) in Heq. rewrite length_app in Heq. simpl in Heq. lia.
  - split; [discriminate|]. intros Heq. exfalso.
    apply (f_equal (entries d)) in Heq. rewrite exit_ledger_same in Heq.
    exact (exit_ledger_changes _ _ _ _ _ _ Hi Hk Heq).
Qed.

Lemma no_action_iff_unchanged_witness :
  [Action.mk "tp1_long" "sell" (1 * 0.9) 114 None] = []
  <-> exit_state Sample.crowded Long Tp1 2 Sample.fresh = Sample.crowded.
Proof.
  apply (no_action_iff_unchanged Sample.crowded (Sample.flat 114) 1000 1000).
  reflexivity.
Defined.

(** Evaluates the tag counts of the goal. *)
Ltac count_tags :=
  repeat match goal with
         | |- context [tagged ?tag ?l] =>
           let v := eval vm_compute in (tagged tag l) in
           change (tagged tag l) with v
         end.

(** X7: a call never touches the parameters, and each completed-trade
    counter grows by the number of tier-2 actions of its book in the
    returned list: by one on a tier-2 exit of that book, by nothing
    otherwise. *)
Theorem counters_follow_tier2 self df account_value cash s' actions :
  process_bar self df account_value cash = Returned (s', actions) ->
  params s' = params self
  /\ completed_long_trades s'
     = (completed_long_trades self + tagged "tp2_long" actions)%Z
  /\ completed_short_trades s'
     = (completed_short_trades self + tagged "tp2_short" actions)%Z.
Proof.
  intros Hrun. apply returned_step in Hrun.
  inversion Hrun as [|b Hb Hbull Hcash|b Hb Hbear|price d i e k Hscan Hi Hdef Hreach Hk];
    subst.
  - split; [reflexivity|]. count_tags. cbn. split; lia.
  - split; [reflexivity|]. count_tags. cbn. split; lia.
  - split; [reflexivity|]. count_tags. cbn. split; lia.
  - destruct d, k; (split; [reflexivity|]); count_tags; cbn; split; lia.
Qed.

Lemma counters_follow_tier2_witness :
  params (exit_state (Sample.one_long Sample.halved) Long Tp2 0 Sample.halved)
  = StrategyParams.default
  /\ completed_long_trades
       (exit_state (Sample.one_long Sample.halved) Long Tp2 0 Sample.halved)
     = (0 + tagged "tp2_long" [Action.mk "tp2_long" "sell" 1 120 None])%Z
  /\ completed_short_trades
       (exit_state (Sample.one_long Sample.halved) Long Tp2 0 Sample.halved)
     = (0 + tagged "tp2_short" [Action.mk "tp2_long" "sell" 1 120 None])%Z.
Proof.
  apply (counters_follow_tier2 (Sample.one_long Sample.halved) (Sample.flat 120)
           1000 1000).
  reflexivity.
Defined.

(** ** Prices, entries and errors *)

Lemma read_bar_last p df b :
  read_bar p df = Returned (Some b) ->
  exists close,
    column "close" df = Some close
    /\ last close = Some (price b)
    /\ (max_period p + 1 <= length close)%nat.
Proof.
  unfold read_bar. destruct (column "close" df) as [close|]; [|discriminate].
  destruct (length close <? max_period p + 1)%nat eqn:Hlen; [discriminate|].
  apply Nat.ltb_ge in Hlen. unfold iloc.
  destruct (close !! (length close - 1)%nat) as [x|] eqn:Hx; [|discriminate].
  destruct (close !! (length close - 1 - 1)%nat) as [y|]; [|discriminate].
  cbn [bind]. destruct (Qleb x 0); [discriminate|].
  intros [= <-]. exists close. split; [reflexivity|]. split; [|exact Hlen].
  rewrite last_lookup. cbn [price].
  replace (Nat.pred (length close)) with (length close - 1)%nat by lia.
  exact Hx.
Qed.

Lemma scan_price_bar self df account_value cash price :
  scan_price self df account_value cash = Some price ->
  exists b, read_bar (params self) df = Returned (Some b) /\ StrategyState.price b = price.
Proof.
  unfold scan_price.
  destruct (read_bar (params self) df) as [[b|]|]; try discriminate.
  destruct ((long_signal b
             && Qleb (account_value * StrategyParams.buy_pct (params self)) cash)
            || short_signal b); [discriminate|].
  intros [= <-]. exists b. split; reflexivity.
Qed.

(** X8: every action that a call returns carries, as its price, the last
    close of the frame, and that close is positive and preceded by enough
    history. *)
Theorem actions_priced_at_last_close self df account_value cash s' actions a :
  process_bar self df account_value cash = Returned (s', actions) ->
  a ∈ actions ->
  exists close,
    column "close" df = Some close
    /\ last close = Some (Action.price a)
    /\ 0 < Action.price a
    /\ (max_period (params self) + 1 <= length close)%nat.
Proof.
  intros Hrun Ha. apply returned_step in Hrun.
  inversion Hrun as [|b Hb Hbull Hcash|b Hb Hbear|price d i e k Hscan Hi Hdef Hreach Hk];
    subst.
  - inversion Ha.
  - apply list_elem_of_singleton in Ha as ->. cbn [Action.price].
    destruct (read_bar_last _ _ _ Hb) as (close & Hc & Hl & Hn).
    exists close. repeat split; try assumption.
    exact (read_bar_price_pos _ _ _ Hb).
  - apply list_elem_of_singleton in Ha as ->. cbn [Action.price].
    destruct (read_bar_last _ _ _ Hb) as (close & Hc & Hl & Hn).
    exists close. repeat split; try assumption.
    exact (read_bar_price_pos _ _ _ Hb).
  - apply list_elem_of_singleton in Ha as ->. cbn [exit_action Action.price].
    destruct (scan_price_bar _ _ _ _ _ Hscan) as (b & Hb & <-).
    destruct (read_bar_last _ _ _ Hb) as (close & Hc & Hl & Hn).
    exists close. repeat split; try assumption.
    exact (read_bar_price_pos _ _ _ Hb).
Qed.

Lemma actions_priced_at_last_close_witness :
  exists close,
    column "close" (Sample.flat 114) = Some close
    /\ last close = Some 114
    /\ 0 < 114
    /\ (max_period StrategyParams.default + 1 <= length close)%nat.
Proof.
  apply (actions_priced_at_last_close Sample.crowded (Sample.flat 114) 1000 1000
           (exit_state Sample.crowded Long Tp1 2 Sample.fresh)
           [Action.mk "tp1_long" "sell" (1 * 0.9) 114 None]
           (Action.mk "tp1_long" "sell" (1 * 0.9) 114 None)).
  - reflexivity.
  - apply list_elem_of_singleton. reflexivity.
Defined.

Lemma elem_of_exit_ledger p k i e es x :
  es !! i = Some e ->
  x ∈ exit_ledger p k i e es ->
  x ∈ es
  \/ (k = Tp1
      /\ x = Entry.mk (Entry.price e)
               (Entry.size e - Entry.size e * StrategyParams.tp1_sell_prop p)
               true).
Proof.
  intros Hi Hx. destruct k; cbn [exit_ledger] in Hx.
  - apply list_elem_of_lookup_1 in Hx as [j Hj].
    apply list_lookup_insert_Some in Hj as [(_ & <- & _)|(_ & Hj)].
    + right. split; reflexivity.
    + left. eapply list_elem_of_lookup_2. exact Hj.
  - left. eapply list_elem_of_delete_inv. exact Hx.
  - left. eapply list_elem_of_delete_inv. exact Hx.
Qed.

(** X9: after a call, every entry of a ledger is an entry that was there
    before the call, or the remainder of one whose tier-1 was not done
    (same price, [tp1_done] set, size reduced by size * tp1_sell_prop), or
    the entry just opened at the last close with [tp1_done] unset.  So a
    call never alters the price of an entry and never unsets
    [tp1_done]. *)
Theorem entries_provenance self df account_value cash s' actions d e' :
  process_bar self df account_value cash = Returned (s', actions) ->
  e' ∈ entries d s' ->
  e' ∈ entries d self
  \/ (exists e,
         e ∈ entries d self
         /\ Entry.tp1_done e = false
         /\ e' = Entry.mk (Entry.price e)
                   (Entry.size e
                    - Entry.size e * StrategyParams.tp1_sell_prop (params self))
                   true)
  \/ (exists close x,
         column "close" df = Some close
         /\ last close = Some x
         /\ e' = Entry.mk x
                   (account_value * StrategyParams.buy_pct (params self) / x)
                   false).
Proof.
  intros Hrun He'. apply returned_step in Hrun.
  inversion Hrun as [|b Hb Hbull Hcash|b Hb Hbear|price d0 i e k Hscan Hi Hdef Hreach Hk];
    subst.
  - left. exact He'.
  - destruct d; cbn in He'; [|left; exact He'].
    apply elem_of_app in He' as [He'|He']; [left; exact He'|].
    apply list_elem_of_singleton in He' as ->. right. right.
    destruct (read_bar_last _ _ _ Hb) as (close & Hc & Hl & _).
    exists close, (price b). repeat split; assumption.
  - destruct d; cbn in He'; [left; exact He'|].
    apply elem_of_app in He' as [He'|He']; [left; exact He'|].
    apply list_elem_of_singleton in He' as ->. right. right.
    destruct (read_bar_last _ _ _ Hb) as (close & Hc & Hl & _).
    exists close, (price b). repeat split; assumption.
  - assert (d = d0 \/ d0 = opposite d) as [->| ->]
      by (destruct d, d0; auto).
    + rewrite exit_ledger_same in He'.
      apply (elem_of_exit_ledger _ _ _ _ _ _ Hi) in He' as [He'|[-> ->]];
        [left; exact He'|].
      right. left. exists e. split; [|split; [|reflexivity]].
      * eapply list_elem_of_lookup_2. exact Hi.
      * eapply first_hit_tp1_fresh. exact Hk.
    + left. destruct d; exact He'.
Qed.

Lemma entries_provenance_witness :
  Entry.mk 100 (1 - 1 * 0.9) true ∈ entries Long Sample.crowded
  \/ (exists e,
         e ∈ entries Long Sample.crowded
         /\ Entry.tp1_done e = false
         /\ Entry.mk 100 (1 - 1 * 0.9) true
            = Entry.mk (Entry.price e)
                (Entry.size e
                 - Entry.size e * StrategyParams.tp1_sell_prop (params Sample.crowded))
                true)
  \/ (exists close x,
         column "close" (Sample.flat 114) = Some close
         /\ last close = Some x
         /\ Entry.mk 100 (1 - 1 * 0.9) true
            = Entry.mk x
                (1000 * StrategyParams.buy_pct (params Sample.crowded) / x) false).
Proof.
  apply (entries_provenance Sample.crowded (Sample.flat 114) 1000 1000
           (exit_state Sample.crowded Long Tp1 2 Sample.fresh)
           [Action.mk "tp1_long" "sell" (1 * 0.9) 114 None]).
  - reflexivity.
  - cbn. apply list_elem_of_lookup. exists 2%nat. reflexivity.
Defined.

Lemma manage_long_S_unpriced self price i e :
  long_entries self !! i = Some e ->
  Entry.price e == 0 ->
  manage_long self price (S i) = Raised ZeroDivisionError.
Proof.
  intros Hi Hz. cbn [manage_long]. rewrite Hi. unfold truediv.
  apply Qeq_bool_iff in Hz. rewrite Hz. reflexivity.
Qed.

(** X10: a call raises exactly when the bar opens no position and the
    scan, before any condition trips, comes to a long entry whose price is
    zero; the exception is then [ZeroDivisionError].  A short entry never
    makes a call raise, whatever its price. *)
Theorem raises_iff_scan_meets_unpriced self df account_value cash ex :
  process_bar self df account_value cash = Raised ex
  <-> ex = ZeroDivisionError /\ scan_meets_unpriced self df account_value cash.
Proof.
  split.
  - intros Hrun. pose proof (process_bar_steps self df account_value cash) as H.
    rewrite Hrun in H. exact H.
  - intros (-> & price & i & e & Hscan & Hi & Hz & Hreach).
    destruct (process_bar_scan _ _ _ _ _ Hscan) as [_ ->].
    pose proof (lookup_lt_Some _ _ _ Hi) as Hlt.
    unfold manage, or_else.
    rewrite (manage_long_skip self price (S i)); [|lia|exact Hreach].
    rewrite (manage_long_S_unpriced _ _ _ _ Hi Hz). reflexivity.
Qed.

(** At 100 nothing trips on the two newer long entries of the crowded
    ledger, and the scan comes to the oldest one, whose price is 0. *)
Lemma raises_iff_scan_meets_unpriced_witness :
  process_bar Sample.crowded (Sample.flat 100) 1000 1000
  = Raised ZeroDivisionError.
Proof.
  apply (proj2 (raises_iff_scan_meets_unpriced Sample.crowded (Sample.flat 100)
                  1000 1000 ZeroDivisionError)).
  split; [reflexivity|].
  exists 100, 0%nat, (Entry.mk 0 1 false). repeat split.
Defined.

Lemma delete_insert_same {A} (l : list A) i x : delete i (<[i := x]> l) = delete i l.
Proof.
  revert i. induction l as [|y l IH]; intros [|i]; cbn; try reflexivity.
  f_equal. apply IH.
Qed.

Lemma exit_ledger_after_tier1 p k i e e1 es :
  k <> Tp1 ->
  exit_ledger p k i e1 (exit_ledger p Tp1 i e es) = delete i es.
Proof.
  intros Hk. destruct k; [congruence| |]; cbn [exit_ledger];
    apply delete_insert_same.
Qed.

(** X11: two calls in a row on one entry.  When a call makes the tier-1
    exit of an entry and a later call, on the state that the first one
    left, makes the next exit of the same entry, that exit is a stop-loss
    or a tier-2, the entry is gone from its ledger, and the second action
    closes what the first one left: the first has the size
    size * tp1_sell_prop, the second the size size - size * tp1_sell_prop,
    the remainder as the first call computed it. *)
Theorem tier1_then_final_exit
    self df1 equity1 cash1 price1 df2 equity2 cash2 price2 d i e k :
  scan_price self df1 equity1 cash1 = Some price1 ->
  entries d self !! i = Some e ->
  pnl_defined d e = true ->
  reached self price1 d i = true ->
  first_hit (params self) (pnl_pct d price1 e) e = Some Tp1 ->
  scan_price (exit_state self d Tp1 i e) df2 equity2 cash2 = Some price2 ->
  reached (exit_state self d Tp1 i e) price2 d i = true ->
  first_hit (params self)
    (pnl_pct d price2
       (Entry.mk (Entry.price e)
          (Entry.size e - Entry.size e * StrategyParams.tp1_sell_prop (params self))
          true))
    (Entry.mk (Entry.price e)
       (Entry.size e - Entry.size e * StrategyParams.tp1_sell_prop (params self))
       true)
  = Some k ->
  exists a1 a2 s2,
    process_bar self df1 equity1 cash1
    = Returned (exit_state self d Tp1 i e, [a1])
    /\ process_bar (exit_state self d Tp1 i e) df2 equity2 cash2
       = Returned (s2, [a2])
    /\ k <> Tp1
    /\ Action.op a1 = op_tag d Tp1
    /\ Action.op a2 = op_tag d k
    /\ Action.size a1
       = Entry.size e * StrategyParams.tp1_sell_prop (params self)
    /\ Action.size a2
       = Entry.size e - Entry.size e * StrategyParams.tp1_sell_prop (params self)
    /\ entries d s2 = delete i (entries d self).
Proof.
  intros Hscan1 Hi Hdef Hreach1 Hk1 Hscan2 Hreach2 Hk2.
  set (e1 := Entry.mk (Entry.price e)
               (Entry.size e
                - Entry.size e * StrategyParams.tp1_sell_prop (params self))
               true) in *.
  set (s1 := exit_state self d Tp1 i e) in *.
  assert (k <> Tp1) as Hne by (eapply first_hit_done; [|exact Hk2]; reflexivity).
  assert (entries d s1 !! i = Some e1) as Hi1.
  { subst s1. rewrite exit_ledger_same. cbn [exit_ledger].
    apply list_lookup_insert_eq. eapply lookup_lt_Some. exact Hi. }
  assert (params s1 = params self) as Hp by apply exit_params.
  exists (exit_action (params self) d Tp1 e price1),
         (exit_action (params s1) d k e1 price2),
         (exit_state s1 d k i e1).
  split; [|split; [|split; [exact Hne|split; [reflexivity|split; [reflexivity|
    split; [reflexivity|split]]]]]].
  - destruct (process_bar_scan _ _ _ _ _ Hscan1) as [Hpos ->].
    apply manage_first_trigger; assumption.
  - destruct (process_bar_scan _ _ _ _ _ Hscan2) as [Hpos ->].
    apply manage_first_trigger; try assumption.
    rewrite Hp. exact Hk2.
  - destruct k; [congruence| |]; reflexivity.
  - rewrite exit_ledger_same. subst s1. rewrite exit_ledger_same, exit_params.
    apply exit_ledger_after_tier1. exact Hne.
Qed.

(** Nine tenths of the entry at 110, the rest at 120. *)
Lemma tier1_then_final_exit_witness :
  exists a1 a2 s2,
    process_bar (Sample.one_long Sample.fresh) (Sample.flat 110) 1000 1000
    = Returned (exit_state (Sample.one_long Sample.fresh) Long Tp1 0 Sample.fresh,
                [a1])
    /\ process_bar
         (exit_state (Sample.one_long Sample.fresh) Long Tp1 0 Sample.fresh)
         (Sample.flat 120) 1000 1000
       = Returned (s2, [a2])
    /\ Tp2 <> Tp1
    /\ Action.op a1 = "tp1_long"
    /\ Action.op a2 = "tp2_long"
    /\ Action.size a1 = 1 * 0.9
    /\ Action.size a2 = 1 - 1 * 0.9
    /\ entries Long s2 = [].
Proof.
  apply (tier1_then_final_exit (Sample.one_long Sample.fresh) (Sample.flat 110)
           1000 1000 110 (Sample.flat 120) 1000 1000 120 Long 0%nat
           Sample.fresh Tp2); reflexivity.
Defined.

(** ** More on snapshots *)

(** X12: [from_json] reads five keys of the document and nothing else:
    two documents that agree on [params], [long_entries],
    [short_entries], [completed_long_trades] and [completed_short_trades]
    load alike, so any other top-level key is ignored without an error. *)
Theorem from_json_reads_five_keys d1 d2 :
  dget "params" d1 = dget "params" d2 ->
  dget "long_entries" d1 = dget "long_entries" d2 ->
  dget "short_entries" d1 = dget "short_entries" d2 ->
  dget "completed_long_trades" d1 = dget "completed_long_trades" d2 ->
  dget "completed_short_trades" d1 = dget "completed_short_trades" d2 ->
  Obj.from_json (PDict d1) = Obj.from_json (PDict d2).
Proof.
  intros Hp Hl Hs Hcl Hcs. unfold Obj.from_json, kwarg.
  rewrite Hp, Hl, Hs, Hcl, Hcs. reflexivity.
Qed.

Lemma from_json_reads_five_keys_witness :
  Obj.from_json (PDict [("version", PInt 3); ("completed_long_trades", PInt 7)])
  = Obj.from_json (PDict [("completed_long_trades", PInt 7)]).
Proof. apply from_json_reads_five_keys; reflexivity. Defined.

Lemma new_entries_type_error xs ex :
  Obj.new_entries xs = Raised ex -> ex = TypeError.
Proof.
  induction xs as [|e xs IH]; [discriminate|]. cbn [Obj.new_entries].
  destruct (Obj.new_entry e) as [x|ex0] eqn:He; cbn [bind].
  - destruct (Obj.new_entries xs) as [tl|ex1]; cbn [bind]; [discriminate|].
    intros [= <-]. apply IH. reflexivity.
  - intros [= <-]. revert He. unfold Obj.new_entry.
    destruct e as [| | | | | |kw]; try (intros [= <-]; reflexivity).
    destruct (known_keywords ["price"; "size"; "tp1_done"] kw);
      [|intros [= <-]; reflexivity].
    destruct (dget "price" kw); [|intros [= <-]; reflexivity].
    destruct (dget "size" kw); [discriminate|intros [= <-]; reflexivity].
Qed.

Lemma entries_of_type_error v ex :
  Obj.entries_of v = Raised ex -> ex = TypeError.
Proof.
  destruct v as [| | | |s|xs|kv]; cbn [Obj.entries_of];
    try (intros [= <-]; reflexivity).
  - destruct s; [discriminate|intros [= <-]; reflexivity].
  - apply new_entries_type_error.
  - destruct kv; [discriminate|intros [= <-]; reflexivity].
Qed.

(** X13: on a JSON object the only exception of [from_json] is
    [TypeError], and it is raised, before anything else is read, when
    [params] is present but is no object or has a key that is not the name
    of a parameter. *)
Theorem from_json_type_errors d :
  (forall ex, Obj.from_json (PDict d) = Raised ex -> ex = TypeError)
  /\ (forall v,
         dget "params" d = Some v ->
         match v with
         | PDict kw =>
           known_keywords ["ma_fast"; "ma_slow"; "buy_pct"; "tp1_pct"; "tp2_pct";
                           "sl_pct"; "tp1_sell_prop"] kw = false ->
           Obj.from_json (PDict d) = Raised TypeError
         | _ => Obj.from_json (PDict d) = Raised TypeError
         end).
Proof.
  split.
  - intros ex. unfold Obj.from_json.
    destruct (match kwarg "params" (PDict []) d with
              | PDict kw => Obj.new_params kw
              | _ => Raised TypeError
              end) as [p|ex0] eqn:Hp; cbn [bind].
    + destruct (Obj.entries_of (kwarg "long_entries" (PList []) d))
        as [longs|ex1] eqn:Hl; cbn [bind].
      * destruct (Obj.entries_of (kwarg "short_entries" (PList []) d))
          as [shorts|ex2] eqn:Hs; cbn [bind]; [discriminate|].
        intros [= <-]. eapply entries_of_type_error. exact Hs.
      * intros [= <-]. eapply entries_of_type_error. exact Hl.
    + intros [= <-]. revert Hp.
      destruct (kwarg "params" (PDict []) d) as [| | | | | |kw];
        try (intros [= <-]; reflexivity).
      unfold Obj.new_params.
      destruct (known_keywords _ kw); [discriminate|intros [= <-]; reflexivity].
  - intros v Hv. unfold Obj.from_json. rewrite (kwarg_present _ _ _ _ Hv).
    destruct v as [| | | | | |kw]; try reflexivity.
    intros Hkw. unfold Obj.new_params. rewrite Hkw. reflexivity.
Qed.

Lemma from_json_type_errors_witness :
  Obj.from_json (PDict [("params", PDict [("ma_mid", PInt 15)])])
  = Raised TypeError.
Proof.
  apply (proj2 (from_json_type_errors [("params", PDict [("ma_mid", PInt 15)])])
           (PDict [("ma_mid", PInt 15)]) eq_refl).
  reflexivity.
Defined.

(** * Properties of the live script *)

Import Live.

(** ** The position side of a trade *)

(** X14: [_get_pos_side_from_trade] answers [None], ["long"] or ["short"]
    and nothing else, whatever the trade holds: a side such as ["net"] is
    no side. *)
Theorem pos_side_is_long_or_short trade :
  _get_pos_side_from_trade trade = None
  \/ _get_pos_side_from_trade trade = Some "long"
  \/ _get_pos_side_from_trade trade = Some "short".
Proof.
  unfold _get_pos_side_from_trade.
  destruct (str_or _ _) as [[|c s]|]; [left; reflexivity| |left; reflexivity].
  destruct (String.eqb (lower (String c s)) "long") eqn:Hl.
  - apply String.eqb_eq in Hl. rewrite Hl. right. left. reflexivity.
  - destruct (String.eqb (lower (String c s)) "short") eqn:Hs.
    + apply String.eqb_eq in Hs. rewrite Hs. right. right. reflexivity.
    + left. reflexivity.
Qed.

(** ** Replaying the trades *)

Lemma replay_step_open contract_size pos_side st t :
  (snd st = true -> 0 < fst st) ->
  snd (replay_step contract_size pos_side st t) = true ->
  0 < fst (replay_step contract_size pos_side st t).
Proof.
  destruct st as [net reduced]. intros Hinv. unfold replay_step.
  destruct (Qleb (num_or (Trade.amount t) 0 * contract_size) 0); [exact Hinv|].
  set (delta := if String.eqb pos_side "long" then _ else _).
  destruct (Qleb net 0 && Qltb 0 (net + delta)); [discriminate|].
  destruct (Qleb (net + delta) 0) eqn:Hnet; [discriminate|].
  intros _. cbn [fst]. apply Qleb_false. exact Hnet.
Qed.

Lemma replay_fold_open contract_size pos_side l st :
  (snd st = true -> 0 < fst st) ->
  snd (foldl (replay_step contract_size pos_side) st l) = true ->
  0 < fst (foldl (replay_step contract_size pos_side) st l).
Proof.
  revert st. induction l as [|t l IH]; intros st Hinv; [exact Hinv|].
  cbn [foldl]. apply IH. apply replay_step_open. exact Hinv.
Qed.

(** X15: [_infer_tp1_done_from_trades] answers [True] only while the
    position that the trades add up to is open: whenever it answers
    [True], the replayed net size is positive. *)
Theorem tp1_inferred_only_when_open trades contract_size pos_side :
  _infer_tp1_done_from_trades trades contract_size pos_side = true ->
  0 < fst (replay trades contract_size pos_side).
Proof.
  unfold _infer_tp1_done_from_trades, replay.
  apply replay_fold_open. discriminate.
Qed.

Lemma tp1_inferred_only_when_open_witness :
  0 < fst (replay [LiveSample.sold; LiveSample.bought] 0.01 "long").
Proof.
  apply (tp1_inferred_only_when_open [LiveSample.sold; LiveSample.bought] 0.01
           "long").
  reflexivity.
Defined.

(** ** The stable sort *)

Lemma insert_by_front {A : Type} (key : A -> Z) x l :
  Forall (key_le key x) l -> insert_by key x l = x :: l.
Proof.
  destruct l as [|y l]; [reflexivity|]. intros H. cbn [insert_by].
  apply Forall_cons_1 in H as [Hxy _]. unfold key_le in Hxy.
  apply Z.leb_le in Hxy. rewrite Hxy. reflexivity.
Qed.

Lemma Forall_insert_by {A : Type} (key : A -> Z) (P : A -> Prop) x l :
  P x -> Forall P l -> Forall P (insert_by key x l).
Proof.
  intros Hx. induction l as [|y l IH]; intros Hl; cbn [insert_by].
  - constructor; [exact Hx|constructor].
  - apply Forall_cons_1 in Hl as [Hy Hl].
    destruct (key x <=? key y)%Z.
    + constructor; [exact Hx|]. constructor; assumption.
    + constructor; [exact Hy|]. apply IH. exact Hl.
Qed.

Lemma insert_by_sorted {A : Type} (key : A -> Z) x l :
  StronglySorted (key_le key) l -> StronglySorted (key_le key) (insert_by key x l).
Proof.
  induction l as [|y l IH]; intros Hs; cbn [insert_by].
  - constructor; constructor.
  - apply StronglySorted_inv in Hs as [Hs Hy].
    destruct (key x <=? key y)%Z eqn:Hxy.
    + apply Z.leb_le in Hxy. constructor.
      * constructor; assumption.
      * constructor; [exact Hxy|].
        eapply Forall_impl; [exact Hy|]. intros z Hz. unfold key_le in *. lia.
    + apply Z.leb_gt in Hxy. constructor; [apply IH; exact Hs|].
      apply Forall_insert_by; [unfold key_le; lia|exact Hy].
Qed.

Lemma sort_by_sorted {A : Type} (key : A -> Z) l : StronglySorted (key_le key) (sort_by key l).
Proof.
  induction l as [|x l IH]; [constructor|].
  cbn [sort_by foldr]. apply insert_by_sorted. exact IH.
Qed.

(** Filtering a sorted list commutes with an insertion. *)
Lemma filter_insert_by {A : Type} (key : A -> Z) (f : A -> bool) x l :
  StronglySorted (key_le key) l ->
  List.filter f (insert_by key x l)
  = if f x then insert_by key x (List.filter f l) else List.filter f l.
Proof.
  induction l as [|y l IH]; intros Hs.
  - cbn. destruct (f x); reflexivity.
  - apply StronglySorted_inv in Hs as [Hs Hy]. cbn [insert_by].
    destruct (key x <=? key y)%Z eqn:Hxy.
    + cbn [List.filter]. destruct (f x); [|reflexivity].
      symmetry. apply insert_by_front.
      apply Z.leb_le in Hxy.
      assert (Forall (key_le key x) (y :: l)) as Hall.
      { constructor; [exact Hxy|].
        eapply Forall_impl; [exact Hy|]. intros z Hz. unfold key_le in *. lia. }
      change (Forall (key_le key x) (List.filter f (y :: l))).
      apply Forall_forall. intros z Hz.
      apply list_elem_of_In, filter_In in Hz as [Hz _].
      rewrite Forall_forall in Hall. apply Hall. apply list_elem_of_In. exact Hz.
    + cbn [List.filter]. rewrite (IH Hs).
      destruct (f y), (f x); try reflexivity.
      cbn [insert_by]. rewrite Hxy. reflexivity.
Qed.

Lemma sort_by_filter {A : Type} (key : A -> Z) (f : A -> bool) l :
  sort_by key (List.filter f l) = List.filter f (sort_by key l).
Proof.
  induction l as [|x l IH]; [reflexivity|].
  cbn [sort_by foldr List.filter].
  rewrite filter_insert_by by apply sort_by_sorted.
  fold (sort_by key l). rewrite <- IH.
  destruct (f x); reflexivity.
Qed.

(** Two insertions with different keys can be swapped. *)
Lemma insert_by_comm {A : Type} (key : A -> Z) x y l :
  key x <> key y ->
  insert_by key x (insert_by key y l) = insert_by key y (insert_by key x l).
Proof.
  intros Hne. induction l as [|z l IH].
  - cbn [insert_by].
    destruct (key x <=? key y)%Z eqn:Hxy, (key y <=? key x)%Z eqn:Hyx;
      try reflexivity.
    + apply Z.leb_le in Hxy, Hyx. lia.
    + apply Z.leb_gt in Hxy, Hyx. lia.
  - cbn [insert_by].
    destruct (key y <=? key z)%Z eqn:Hyz, (key x <=? key z)%Z eqn:Hxz;
      cbn [insert_by];
      destruct (key x <=? key y)%Z eqn:Hxy, (key y <=? key x)%Z eqn:Hyx;
      rewrite ?Hyz, ?Hxz; try reflexivity;
      try (apply Z.leb_le in Hxy; apply Z.leb_le in Hyx; lia);
      try (apply Z.leb_gt in Hxy; apply Z.leb_gt in Hyx; lia);
      try (rewrite IH; reflexivity);
      try (apply Z.leb_le in Hxz; apply Z.leb_gt in Hyz; apply Z.leb_gt in Hxy; lia);
      try (apply Z.leb_le in Hyz; apply Z.leb_gt in Hxz; apply Z.leb_gt in Hyx; lia).
Qed.

Lemma bool_filter_Permutation {A : Type} (f : A -> bool) (l1 l2 : list A) :
  Permutation l1 l2 -> Permutation (List.filter f l1) (List.filter f l2).
Proof.
  induction 1 as [|x l1 l2 _ IH|x y l|l1 l2 l3 _ IH1 _ IH2]; cbn [List.filter].
  - constructor.
  - destruct (f x); [constructor|]; exact IH.
  - destruct (f x), (f y); try apply Permutation_refl. apply perm_swap.
  - eapply perm_trans; eassumption.
Qed.

(** With pairwise different keys the sorted list does not depend on the
    order of the input. *)
Lemma sort_by_Permutation {A : Type} (key : A -> Z) l1 l2 :
  Permutation l1 l2 ->
  NoDup (map key l1) ->
  sort_by key l1 = sort_by key l2.
Proof.
  induction 1 as [|x l1 l2 Hp IH|x y l|l1 l2 l3 Hp1 IH1 Hp2 IH2]; intros Hnd.
  - reflexivity.
  - cbn [sort_by foldr]. fold (sort_by key l1) (sort_by key l2).
    cbn [map] in Hnd. apply NoDup_cons in Hnd as [_ Hnd].
    rewrite (IH Hnd). reflexivity.
  - cbn [sort_by foldr]. fold (sort_by key l).
    cbn [map] in Hnd. apply NoDup_cons in Hnd as [Hy _].
    apply insert_by_comm. intros E. apply Hy. rewrite E. left.
  - rewrite (IH1 Hnd). apply IH2.
    assert (map key l1 ≡ₚ map key l2) as HP by (apply Permutation_map; exact Hp1).
    rewrite <- HP. exact Hnd.
Qed.

Lemma replay_fold_sized contract_size pos_side l st :
  foldl (replay_step contract_size pos_side) st (List.filter (sized contract_size) l)
  = foldl (replay_step contract_size pos_side) st l.
Proof.
  revert st. induction l as [|t l IH]; intros st; [reflexivity|].
  cbn [List.filter foldl]. destruct (sized contract_size t) eqn:Hs.
  - cbn [foldl]. apply IH.
  - rewrite IH. f_equal. unfold sized in Hs. apply negb_false_iff in Hs.
    destruct st as [net reduced]. unfold replay_step. rewrite Hs. reflexivity.
Qed.

Lemma filter_counts contract_size pos_side l :
  List.filter (counts contract_size pos_side) l
  = List.filter (sized contract_size) (List.filter (relevant pos_side) l).
Proof.
  induction l as [|t l IH]; [reflexivity|]. cbn [List.filter]. unfold counts at 1.
  destruct (relevant pos_side t); cbn [andb List.filter];
    [destruct (sized contract_size t)|]; rewrite IH; reflexivity.
Qed.

Lemma filter_relevant_counts contract_size pos_side l :
  List.filter (relevant pos_side) (List.filter (counts contract_size pos_side) l)
  = List.filter (counts contract_size pos_side) l.
Proof.
  induction l as [|t l IH]; [reflexivity|]. cbn [List.filter].
  destruct (counts contract_size pos_side t) eqn:Hc; [|exact IH].
  cbn [List.filter]. unfold counts in Hc. apply andb_true_iff in Hc as [-> _].
  rewrite IH. reflexivity.
Qed.

(** X16: the answer of [_infer_tp1_done_from_trades] depends only on the
    trades of the side asked for that carry a time and have a positive
    size: dropping all the others from the list, wherever they stand,
    changes neither the answer nor the replayed net size. *)
Theorem other_trades_ignored trades contract_size pos_side :
  replay (List.filter (counts contract_size pos_side) trades) contract_size pos_side
  = replay trades contract_size pos_side
  /\ _infer_tp1_done_from_trades
       (List.filter (counts contract_size pos_side) trades) contract_size pos_side
     = _infer_tp1_done_from_trades trades contract_size pos_side.
Proof.
  assert (replay (List.filter (counts contract_size pos_side) trades)
            contract_size pos_side
          = replay trades contract_size pos_side) as H.
  { unfold replay. rewrite filter_relevant_counts, filter_counts.
    rewrite sort_by_filter. apply replay_fold_sized. }
  split; [exact H|]. unfold _infer_tp1_done_from_trades. rewrite H. reflexivity.
Qed.

(** X17: when the trades that count carry pairwise different times, the
    answer of [_infer_tp1_done_from_trades] does not depend on the order in
    which the exchange lists the trades. *)
Theorem trade_order_irrelevant trades1 trades2 contract_size pos_side :
  Permutation trades1 trades2 ->
  NoDup (map timestamp_key (List.filter (relevant pos_side) trades1)) ->
  _infer_tp1_done_from_trades trades1 contract_size pos_side
  = _infer_tp1_done_from_trades trades2 contract_size pos_side.
Proof.
  intros Hp Hnd. unfold _infer_tp1_done_from_trades, replay.
  rewrite (sort_by_Permutation timestamp_key
             (List.filter (relevant pos_side) trades1)
             (List.filter (relevant pos_side) trades2)); [reflexivity| |exact Hnd].
  apply bool_filter_Permutation. exact Hp.
Qed.

Lemma trade_order_irrelevant_witness :
  _infer_tp1_done_from_trades [LiveSample.sold; LiveSample.bought] 0.01 "long"
  = _infer_tp1_done_from_trades [LiveSample.bought; LiveSample.sold] 0.01 "long".
Proof.
  apply trade_order_irrelevant.
  - apply perm_swap.
  - cbn. apply NoDup_cons. split; [|apply NoDup_singleton].
    intros H. apply list_elem_of_singleton in H. discriminate H.
Defined.

(** ** Rebuilding the ledgers from the exchange *)

Lemma num_or_nonzero x dflt : ~ dflt == 0 -> ~ num_or x dflt == 0.
Proof.
  intros Hd. unfold num_or. destruct x as [q|]; [|exact Hd].
  destruct (Qeq_bool q 0) eqn:E; [exact Hd|].
  intros Hq. apply Qeq_bool_iff in Hq. congruence.
Qed.

Lemma contract_size_nonzero ex markets contract_size :
  contract_size_of ex markets = Done contract_size -> ~ contract_size == 0.
Proof.
  unfold contract_size_of.
  destruct (match find_market SYMBOL markets with
            | Some m => Done m
            | None => call (Exchange.market ex SYMBOL)
            end) as [m|f]; cbn [and_then]; [|discriminate].
  intros [= <-]. apply num_or_nonzero. discriminate.
Qed.

Lemma position_step_rebuilt trades contract_size st p :
  rebuilt contract_size (fst st) /\ rebuilt contract_size (snd st) ->
  rebuilt contract_size (fst (position_step trades contract_size st p))
  /\ rebuilt contract_size (snd (position_step trades contract_size st p)).
Proof.
  destruct st as [le se]. intros [Hl Hs]. unfold position_step.
  destruct (Qleb (num_or (Position.contracts p) 0) 0) eqn:Hc; [split; assumption|].
  set (entry_price := if Qleb (num_or (Position.entryPrice p) 0) 0
                      then num_or (Position.average p) 0
                      else num_or (Position.entryPrice p) 0).
  destruct (Qleb entry_price 0) eqn:Hp; [split; assumption|].
  apply Qleb_false in Hc, Hp.
  destruct (String.eqb _ "long").
  - split; [|exact Hs]. intros e [= <-]. cbn. split; [exact Hp|].
    exists (num_or (Position.contracts p) 0). split; [exact Hc|reflexivity].
  - destruct (String.eqb _ "short"); [|split; assumption].
    split; [exact Hl|]. intros e [= <-]. cbn. split; [exact Hp|].
    exists (num_or (Position.contracts p) 0). split; [exact Hc|reflexivity].
Qed.

Lemma positions_fold_rebuilt trades contract_size ps st :
  rebuilt contract_size (fst st) /\ rebuilt contract_size (snd st) ->
  rebuilt contract_size (fst (foldl (position_step trades contract_size) st ps))
  /\ rebuilt contract_size (snd (foldl (position_step trades contract_size) st ps)).
Proof.
  revert st. induction ps as [|p ps IH]; intros st H; [exact H|].
  cbn [foldl]. apply IH. apply position_step_rebuilt. exact H.
Qed.

Lemma sync_done ex state s' :
  sync_state_from_exchange ex state = Done s' ->
  exists markets contract_size le se,
    Exchange.load_markets ex = Ok markets
    /\ contract_size_of ex markets = Done contract_size
    /\ rebuilt contract_size le
    /\ rebuilt contract_size se
    /\ s' = StrategyState.mk (params state) (entry_list le) (entry_list se)
              (completed_long_trades state) (completed_short_trades state).
Proof.
  unfold sync_state_from_exchange.
  destruct (Exchange.load_markets ex) as [markets|msg]; cbn [and_then].
  2: { destruct (contains "50101" msg
                 || contains "does not match current environment" msg);
       discriminate. }
  destruct (contract_size_of ex markets) as [cs|f] eqn:Hcs; cbn [and_then];
    [|discriminate].
  set (positions := match Exchange.fetch_positions ex [SYMBOL] with
                    | Ok ps => ps
                    | Err _ => []
                    end).
  set (trades := match Exchange.fetch_my_trades ex SYMBOL 300 with
                 | Ok ts => ts
                 | Err _ => []
                 end).
  assert (rebuilt cs (fst (foldl (position_step trades cs) (None, None) positions))
          /\ rebuilt cs (snd (foldl (position_step trades cs) (None, None)
                                positions))) as H.
  { apply positions_fold_rebuilt. split; intros e; discriminate. }
  destruct (foldl (position_step trades cs) (None, None) positions) as [le se].
  destruct H as [Hl Hs]. intros [= <-]. exists markets, cs, le, se.
  split; [reflexivity|]. split; [exact Hcs|]. split; [exact Hl|].
  split; [exact Hs|reflexivity].
Qed.

Lemma entry_list_priced contract_size x :
  rebuilt contract_size x -> Forall (fun e => 0 < Entry.price e) (entry_list x).
Proof.
  intros H. destruct x as [e|]; cbn; [|constructor].
  constructor; [|constructor]. apply (H e eq_refl).
Qed.

Lemma entry_list_short x : (length (entry_list x) <= 1)%nat.
Proof. destruct x; cbn; lia. Qed.

Lemma sync_other_state ex state other s' :
  sync_state_from_exchange ex state = Done s' ->
  sync_state_from_exchange ex other
  = Done (StrategyState.mk (params other) (long_entries s') (short_entries s')
            (completed_long_trades other) (completed_short_trades other)).
Proof.
  unfold sync_state_from_exchange.
  destruct (Exchange.load_markets ex) as [markets|msg]; cbn [and_then].
  2: { destruct (contains "50101" msg
                 || contains "does not match current environment" msg);
       discriminate. }
  destruct (contract_size_of ex markets) as [cs|f]; cbn [and_then]; [|discriminate].
  destruct (foldl _ (None, None) _) as [le se].
  intros [= <-]. reflexivity.
Qed.

(** X18: when [sync_state_from_exchange] succeeds, each ledger of the
    state holds at most one entry, every entry has a positive price, and
    the parameters and both counters are those of the state passed in; the
    ledgers that the state had before play no part, only the replies of
    the exchange do. *)
Theorem sync_rebuilds_ledgers ex state s' :
  sync_state_from_exchange ex state = Done s' ->
  (length (long_entries s') <= 1)%nat
  /\ (length (short_entries s') <= 1)%nat
  /\ ledgers_priced s'
  /\ params s' = params state
  /\ completed_long_trades s' = completed_long_trades state
  /\ completed_short_trades s' = completed_short_trades state
  /\ (forall other,
         exists s'',
           sync_state_from_exchange ex other = Done s''
           /\ long_entries s'' = long_entries s'
           /\ short_entries s'' = short_entries s').
Proof.
  intros Hsync. pose proof (sync_other_state ex state) as Hother.
  destruct (sync_done _ _ _ Hsync) as (markets & cs & le & se & _ & _ & Hl & Hs & ->).
  cbn [long_entries short_entries params completed_long_trades
       completed_short_trades].
  split; [apply entry_list_short|]. split; [apply entry_list_short|].
  split; [split; cbn; eapply entry_list_priced; eassumption|].
  split; [reflexivity|]. split; [reflexivity|]. split; [reflexivity|].
  intros other. eexists. split; [apply Hother; exact Hsync|].
  split; reflexivity.
Qed.

Lemma sync_rebuilds_ledgers_witness :
  (length [Entry.mk 100 (6 * 0.01) true] <= 1)%nat
  /\ (length (@nil Entry.t) <= 1)%nat
  /\ ledgers_priced
       (StrategyState.mk StrategyParams.default [Entry.mk 100 (6 * 0.01) true] [] 3 4)
  /\ StrategyParams.default = params Sample.crowded
  /\ 3%Z = completed_long_trades Sample.crowded
  /\ 4%Z = completed_short_trades Sample.crowded
  /\ (forall other,
         exists s'',
           sync_state_from_exchange LiveSample.exchange other = Done s''
           /\ long_entries s'' = [Entry.mk 100 (6 * 0.01) true]
           /\ short_entries s'' = []).
Proof.
  apply (sync_rebuilds_ledgers LiveSample.exchange Sample.crowded
           (StrategyState.mk StrategyParams.default
              [Entry.mk 100 (6 * 0.01) true] [] 3 4)).
  reflexivity.
Defined.

Lemma entry_list_sized contract_size x :
  0 < contract_size ->
  rebuilt contract_size x -> Forall (fun e => 0 < Entry.size e) (entry_list x).
Proof.
  intros Hcs H. destruct x as [e|]; cbn; [|constructor].
  constructor; [|constructor].
  destruct (H e eq_refl) as (_ & c & Hc & ->).
  apply Qmult_lt_0_compat; assumption.
Qed.

(** X19: when the contract size of the market is positive, every entry
    that [sync_state_from_exchange] builds has a positive size, the
    number of contracts of a position times the contract size; a position
    without contracts gives no entry. *)
Theorem sync_sizes_positive ex state s' markets contract_size :
  sync_state_from_exchange ex state = Done s' ->
  Exchange.load_markets ex = Ok markets ->
  contract_size_of ex markets = Done contract_size ->
  0 < contract_size ->
  ledgers_sized s'.
Proof.
  intros Hsync Hm Hcs Hpos.
  destruct (sync_done _ _ _ Hsync) as (markets' & cs & le & se & Hm' & Hcs' & Hl & Hs & ->).
  rewrite Hm in Hm'. injection Hm' as <-. rewrite Hcs in Hcs'. injection Hcs' as <-.
  split; cbn; eapply entry_list_sized; eassumption.
Qed.

Lemma sync_sizes_positive_witness :
  ledgers_sized
    (StrategyState.mk StrategyParams.default [Entry.mk 100 (6 * 0.01) true] [] 3 4).
Proof.
  apply (sync_sizes_positive LiveSample.exchange Sample.crowded _
           [(SYMBOL, Market.mk (Some 0.01))] 0.01); reflexivity.
Defined.

(** X20: after a successful [sync_state_from_exchange], the call of
    [process_bar] that [run_once] makes next returns: it cannot raise,
    whatever the frame, the equity and the cash, even if the state held
    an entry of price zero before the synchronisation. *)
Theorem process_bar_after_sync_returns ex state s' df account_value cash :
  sync_state_from_exchange ex state = Done s' ->
  exists r, process_bar s' df account_value cash = Returned r.
Proof.
  intros Hsync.
  destruct (sync_done _ _ _ Hsync) as (markets & cs & le & se & _ & _ & Hl & _ & ->).
  pose proof (process_bar_cases
                (StrategyState.mk (params state) (entry_list le) (entry_list se)
                   (completed_long_trades state) (completed_short_trades state))
                df account_value cash) as H.
  destruct (process_bar _ df account_value cash) as [r|ex0]; [eauto|].
  exfalso. destruct H as (_ & i & e & Hi & Hz). cbn [long_entries] in Hi.
  pose proof (entry_list_priced _ _ Hl) as Hall.
  rewrite Forall_lookup in Hall. specialize (Hall i e Hi). cbn beta in Hall.
  rewrite Hz in Hall. exact (Qlt_irrefl _ Hall).
Qed.

Lemma process_bar_after_sync_returns_witness :
  exists r,
    process_bar
      (StrategyState.mk StrategyParams.default [Entry.mk 100 (6 * 0.01) true] [] 3 4)
      (Sample.flat 100) 1000 1000
    = Returned r.
Proof.
  apply (process_bar_after_sync_returns LiveSample.exchange Sample.crowded).
  reflexivity.
Defined.

(** X21: the errors of [fetch_positions] and [fetch_my_trades] are
    swallowed: when the markets load and list the symbol,
    [sync_state_from_exchange] succeeds whatever the two calls do, and when
    [fetch_positions] fails it leaves both ledgers empty.  When the
    markets do not load, it fails: with a [RuntimeError] if the message
    holds ["50101"] or ["does not match current environment"], with the
    error of the exchange otherwise. *)
Theorem sync_swallows_fetch_errors ex state :
  (forall markets m,
      Exchange.load_markets ex = Ok markets ->
      find_market SYMBOL markets = Some m ->
      exists s',
        sync_state_from_exchange ex state = Done s'
        /\ (forall msg,
               Exchange.fetch_positions ex [SYMBOL] = Err msg ->
               long_entries s' = [] /\ short_entries s' = []))
  /\ (forall msg,
         Exchange.load_markets ex = Err msg ->
         sync_state_from_exchange ex state
         = Failed (if contains "50101" msg
                      || contains "does not match current environment" msg
                   then RuntimeError msg
                   else ExchangeError msg)).
Proof.
  split.
  - intros markets m Hm Hfind. unfold sync_state_from_exchange.
    rewrite Hm. cbn [and_then]. unfold contract_size_of.
    rewrite Hfind. cbn [and_then].
    destruct (foldl _ (None, None) _) as [le se] eqn:Hfold.
    eexists. split; [reflexivity|]. intros msg Hp. rewrite Hp in Hfold.
    cbn [foldl] in Hfold. injection Hfold as <- <-. split; reflexivity.
  - intros msg Hm. unfold sync_state_from_exchange. rewrite Hm.
    destruct (contains "50101" msg
              || contains "does not match current environment" msg); reflexivity.
Qed.

Lemma sync_swallows_fetch_errors_witness :
  sync_state_from_exchange LiveSample.refusing Sample.crowded
  = Failed (RuntimeError "okx 50101 APIKey does not match current environment").
Proof.
  apply (proj2 (sync_swallows_fetch_errors LiveSample.refusing Sample.crowded)
           "okx 50101 APIKey does not match current environment" eq_refl).
Defined.

(** ** Sending the orders *)

Lemma place_orders_done ex clock contract_size all actions n acc executed :
  (forall a, a ∈ actions -> a ∈ all) ->
  place_orders ex clock contract_size n actions acc = Done executed ->
  exists new,
    executed = (acc ++ new)%list
    /\ (length new <= length actions)%nat
    /\ Forall (placed ex clock all) new.
Proof.
  revert n acc. induction actions as [|act rest IH]; intros n acc Hsub.
  - cbn [place_orders]. intros [= <-]. exists []. rewrite app_nil_r.
    split; [reflexivity|]. split; [cbn; lia|constructor].
  - assert (forall a, a ∈ rest -> a ∈ all) as Hrest.
    { intros a Ha. apply Hsub. right. exact Ha. }
    assert (forall acc',
               place_orders ex clock contract_size (S n) rest acc' = Done executed ->
               exists new,
                 executed = (acc' ++ new)%list
                 /\ (length new <= length (act :: rest))%nat
                 /\ Forall (placed ex clock all) new) as Hskip.
    { intros acc' H. destruct (IH (S n) acc' Hrest H) as (new & -> & Hlen & Hall).
      exists new. split; [reflexivity|]. split; [cbn; lia|exact Hall]. }
    cbn [place_orders].
    destruct (Qleb (Action.size act) 0) eqn:Hsize; [apply Hskip|].
    destruct (Qeq_bool contract_size 0); [discriminate|].
    destruct (Qleb (Action.size act / contract_size) 0); [apply Hskip|].
    destruct (Exchange.amount_to_precision ex SYMBOL
                (Action.size act / contract_size)) as [contracts|msg];
      cbn [call and_then]; [|discriminate].
    destruct (Qleb contracts 0) eqn:Hc; [apply Hskip|].
    destruct (Exchange.create_order ex SYMBOL "market" (Action.side act) contracts
                (order_params (Action.op act) (clock n))) as [order|msg] eqn:Ho;
      cbn [call and_then]; [|discriminate].
    intros H. destruct (IH (S n) _ Hrest H) as (new & -> & Hlen & Hall).
    exists (Executed.mk act contracts order :: new).
    split; [rewrite <- app_assoc; reflexivity|].
    split; [cbn; lia|]. constructor; [|exact Hall].
    split; [apply Hsub; left|]. cbn.
    split; [apply Qleb_false; exact Hsize|].
    split; [apply Qleb_false; exact Hc|]. exists n. exact Ho.
Qed.

Lemma execute_actions_done ex clock actions executed :
  execute_actions ex clock actions = Done executed ->
  (length executed <= length actions)%nat
  /\ Forall (placed ex clock actions) executed.
Proof.
  unfold execute_actions.
  destruct (call (Exchange.load_markets ex)) as [markets|f]; cbn [and_then];
    [|discriminate].
  destruct (contract_size_of ex markets) as [cs|f]; cbn [and_then]; [|discriminate].
  intros H.
  destruct (place_orders_done ex clock cs actions actions 0 [] executed
              (fun a Ha => Ha) H) as (new & -> & Hlen & Hall).
  split; assumption.
Qed.

(** X22: [execute_actions] sends at most one order per action and
    returns one element per order sent.  Each element is for an action of
    the list with a positive size, has a positive number of contracts,
    and holds the answer of the exchange to [create_order] with the side
    of the action and the parameters built from its tag; an action whose
    size is not positive sends nothing. *)
Theorem orders_follow_actions ex clock actions executed :
  execute_actions ex clock actions = Done executed ->
  (length executed <= length actions)%nat
  /\ Forall (placed ex clock actions) executed.
Proof.
  unfold execute_actions.
  destruct (call (Exchange.load_markets ex)) as [markets|f]; cbn [and_then];
    [|discriminate].
  destruct (contract_size_of ex markets) as [cs|f]; cbn [and_then]; [|discriminate].
  intros Hloop.
  destruct (place_orders_done ex clock cs actions actions 0 [] executed
              (fun a Ha => Ha) Hloop) as (new & -> & Hlen & Hall).
  split; [exact Hlen|exact Hall].
Qed.

Lemma orders_follow_actions_witness :
  (length [Executed.mk (Action.mk "tp1_long" "sell" (1 * 0.9) 108 None)
             (1 * 0.9 / 0.01) (PStr "filled")] <= 1)%nat
  /\ Forall (placed LiveSample.exchange LiveSample.clock
               [Action.mk "tp1_long" "sell" (1 * 0.9) 108 None])
       [Executed.mk (Action.mk "tp1_long" "sell" (1 * 0.9) 108 None)
          (1 * 0.9 / 0.01) (PStr "filled")].
Proof.
  apply (orders_follow_actions LiveSample.exchange LiveSample.clock
           [Action.mk "tp1_long" "sell" (1 * 0.9) 108 None]).
  reflexivity.
Defined.

Lemma place_orders_failed ex clock contract_size actions n acc f :
  ~ contract_size == 0 ->
  place_orders ex clock contract_size n actions acc = Failed f ->
  exists msg, f = ExchangeError msg.
Proof.
  intros Hcs. assert (Qeq_bool contract_size 0 = false) as Hz.
  { destruct (Qeq_bool contract_size 0) eqn:E; [|reflexivity].
    apply Qeq_bool_iff in E. contradiction. }
  revert n acc. induction actions as [|act rest IH]; intros n acc;
    cbn [place_orders]; [discriminate|].
  destruct (Qleb (Action.size act) 0); [apply IH|]. rewrite Hz.
  destruct (Qleb (Action.size act / contract_size) 0); [apply IH|].
  destruct (Exchange.amount_to_precision ex SYMBOL
              (Action.size act / contract_size)) as [contracts|msg];
    cbn [call and_then]; [|intros [= <-]; eauto].
  destruct (Qleb contracts 0); [apply IH|].
  destruct (Exchange.create_order ex SYMBOL "market" (Action.side act) contracts
              (order_params (Action.op act) (clock n))) as [order|msg];
    cbn [call and_then]; [apply IH|intros [= <-]; eauto].
Qed.

(** X23: [execute_actions] fails only with an error of the exchange: the
    contract size that it divides by is never zero, since a missing or
    zero [contractSize] of the market is replaced by 1. *)
Theorem execute_actions_fails_with_exchange_error ex clock actions f :
  execute_actions ex clock actions = Failed f ->
  exists msg, f = ExchangeError msg.
Proof.
  unfold execute_actions.
  destruct (Exchange.load_markets ex) as [markets|msg]; cbn [call and_then];
    [|intros [= <-]; eauto].
  destruct (contract_size_of ex markets) as [cs|f0] eqn:Hcs; cbn [and_then].
  - apply place_orders_failed. eapply contract_size_nonzero. exact Hcs.
  - intros [= <-]. revert Hcs. unfold contract_size_of.
    destruct (find_market SYMBOL markets); cbn [and_then]; [discriminate|].
    destruct (Exchange.market ex SYMBOL) as [m|msg]; cbn [call and_then];
      [discriminate|intros [= <-]; eauto].
Qed.

Lemma execute_actions_fails_with_exchange_error_witness :
  exists msg,
    ExchangeError "okx 50101 APIKey does not match current environment"
    = ExchangeError msg.
Proof.
  apply (execute_actions_fails_with_exchange_error LiveSample.refusing
           LiveSample.clock [Action.mk "tp1_long" "sell" (1 * 0.9) 108 None]).
  reflexivity.
Defined.

(** ** From the engine to the exchange *)

Lemma returned_effect self df account_value cash s' actions :
  process_bar self df account_value cash = Returned (s', actions) ->
  bar_effect self account_value (s', actions).
Proof.
  intros Hrun. pose proof (process_bar_cases self df account_value cash) as H.
  rewrite Hrun in H. exact H.
Qed.

(** X24: every action that [process_bar] returns is routed by
    [execute_actions] to the position of its own book, in cross margin
    mode: an opening action becomes a buy on the long side or a sell on
    the short side that is not reduce-only, and a tier-1, tier-2 or
    stop-loss action becomes a reduce-only sell on the long side or a
    reduce-only buy on the short side. *)
Theorem engine_actions_routed self df account_value cash s' actions a now :
  process_bar self df account_value cash = Returned (s', actions) ->
  a ∈ actions ->
  OrderParams.tdMode (order_params (Action.op a) now) = "cross"
  /\ ((OrderParams.posSide (order_params (Action.op a) now) = Some "long"
       /\ OrderParams.reduceOnly (order_params (Action.op a) now) = false
       /\ Action.side a = "buy"
       /\ Action.op a = "open_long")
      \/ (OrderParams.posSide (order_params (Action.op a) now) = Some "long"
          /\ OrderParams.reduceOnly (order_params (Action.op a) now) = true
          /\ Action.side a = "sell"
          /\ Action.notional a = None)
      \/ (OrderParams.posSide (order_params (Action.op a) now) = Some "short"
          /\ OrderParams.reduceOnly (order_params (Action.op a) now) = false
          /\ Action.side a = "sell"
          /\ Action.op a = "open_short")
      \/ (OrderParams.posSide (order_params (Action.op a) now) = Some "short"
          /\ OrderParams.reduceOnly (order_params (Action.op a) now) = true
          /\ Action.side a = "buy"
          /\ Action.notional a = None)).
Proof.
  intros Hrun Ha. apply returned_effect in Hrun.
  inversion Hrun as [|price Hpos|price Hpos|price d i e k Hpos Hi]; subst.
  - inversion Ha.
  - apply list_elem_of_singleton in Ha as ->.
    split; [reflexivity|]. left. repeat split.
  - apply list_elem_of_singleton in Ha as ->.
    split; [reflexivity|]. right. right. left. repeat split.
  - apply list_elem_of_singleton in Ha as ->.
    split; [reflexivity|]. destruct d, k.
    all: first [ right; left; repeat split; reflexivity
               | right; right; right; repeat split; reflexivity ].
Qed.

Lemma engine_actions_routed_witness :
  OrderParams.tdMode (order_params "tp1_long" 1730000000) = "cross"
  /\ ((OrderParams.posSide (order_params "tp1_long" 1730000000) = Some "long"
       /\ OrderParams.reduceOnly (order_params "tp1_long" 1730000000) = false
       /\ "sell" = "buy"
       /\ "tp1_long" = "open_long")
      \/ (OrderParams.posSide (order_params "tp1_long" 1730000000) = Some "long"
          /\ OrderParams.reduceOnly (order_params "tp1_long" 1730000000) = true
          /\ "sell" = "sell"
          /\ @None Q = None)
      \/ (OrderParams.posSide (order_params "tp1_long" 1730000000) = Some "short"
          /\ OrderParams.reduceOnly (order_params "tp1_long" 1730000000) = false
          /\ "sell" = "sell"
          /\ "tp1_long" = "open_short")
      \/ (OrderParams.posSide (order_params "tp1_long" 1730000000) = Some "short"
          /\ OrderParams.reduceOnly (order_params "tp1_long" 1730000000) = true
          /\ "sell" = "buy"
          /\ @None Q = None)).
Proof.
  apply (engine_actions_routed (Sample.one_long Sample.fresh) (Sample.flat 108)
           1000 1000
           (exit_state (Sample.one_long Sample.fresh) Long Tp1 0 Sample.fresh)
           [Action.mk "tp1_long" "sell" (1 * 0.9) 108 None]
           (Action.mk "tp1_long" "sell" (1 * 0.9) 108 None) 1730000000).
  - reflexivity.
  - apply list_elem_of_singleton. reflexivity.
Defined.

(** X25: one bar, at most one order: the list that [execute_actions]
    returns for the actions of a call of [process_bar] has at most one
    element. *)
Theorem one_order_per_bar self df account_value cash s' actions ex clock executed :
  process_bar self df account_value cash = Returned (s', actions) ->
  execute_actions ex clock actions = Done executed ->
  (length executed <= 1)%nat.
Proof.
  intros Hrun Hexec. apply returned_effect in Hrun.
  apply execute_actions_done in Hexec as [Hlen _].
  inversion Hrun; subst; cbn in Hlen; lia.
Qed.

Lemma one_order_per_bar_witness :
  (length [Executed.mk (Action.mk "tp1_long" "sell" (1 * 0.9) 108 None)
             (1 * 0.9 / 0.01) (PStr "filled")] <= 1)%nat.
Proof.
  apply (one_order_per_bar (Sample.one_long Sample.fresh) (Sample.flat 108)
           1000 1000
           (exit_state (Sample.one_long Sample.fresh) Long Tp1 0 Sample.fresh)
           [Action.mk "tp1_long" "sell" (1 * 0.9) 108 None]
           LiveSample.exchange LiveSample.clock); reflexivity.
Defined.

(** * The sample inputs in binary64 *)

(** Scenario D of the specification, an entry at 100 whose tier-1 is done,
    with the close at 114 and [tp2_pct = 0.14]: over the rationals the
    profit is 0.14 and tier-2 holds; the program computes
    114.0 / 100.0 - 1.0, which is below the double 0.14, and none of its
    three tests holds. *)
Lemma scenario_d_binary64 :
  first_hit StrategyParams.default (pnl_pct Long 114 Sample.halved) Sample.halved
  = Some Tp2
  /\ PrimFloat.ltb (Binary64.pnl_pct Long 114 100) Binary64.tp2_default = true
  /\ Binary64.default_hit 114 100 true = None.
Proof. repeat split. Qed.

(** The closes at which the lemmas above have an entry bought at 100 leave
    its ledger, or stay in it, give the same answers in binary64. *)
Lemma samples_agree_in_binary64 :
  Binary64.default_hit 108 100 false = Some Tp1
  /\ Binary64.default_hit 110 100 false = Some Tp1
  /\ Binary64.default_hit 114 100 false = Some Tp1
  /\ Binary64.default_hit 120 100 true = Some Tp2
  /\ Binary64.default_hit 80 100 false = Some Sl
  /\ Binary64.default_hit 50 100 false = Some Sl
  /\ Binary64.default_hit 100 100 false = None
  /\ Binary64.default_hit 100 100 true = None.
Proof. repeat split. Qed.

(** So do the three cases without positive thresholds: the stop-loss
    switched off, and a negative tier-2 or tier-1 threshold. *)
Lemma odd_thresholds_agree_in_binary64 :
  Binary64.first_hit Binary64.tp1_default 0 Binary64.tp2_default
    (Binary64.pnl_pct Long 100 100) false = None
  /\ Binary64.first_hit Binary64.tp1_default Binary64.sl_default (-0.5)
       (Binary64.pnl_pct Long 80 100) true = Some Sl
  /\ Binary64.first_hit (-0.5) Binary64.sl_default Binary64.tp2_default
       (Binary64.pnl_pct Long 80 100) false = Some Tp1.
Proof. repeat split. Qed.

(** The same at the stop level itself: a long position bought at 100 has
    lost a fifth at 80, and over the rationals [should_stop_loss] with
    [sl_pct = 0.2] holds; the program computes 80.0 / 100.0 - 1.0, which
    is above the double -0.2, and answers [False]. *)
Lemma stop_level_binary64 :
  should_stop_loss 100 80 "long" 0.2 = Returned true
  /\ Binary64.sl_hit 0x1.999999999999ap-3 (Binary64.pnl_pct Long 80 100) = false.
Proof. split; reflexivity. Qed.
